(** * gen-frameworks-baseline.py: the frameworks.nix baseline generator

    A shallow embedding of [pkgs/os-specific/darwin/gen-frameworks-baseline.py]
    and the properties of its output.

    Conventions of the embedding.
    - A Python [str] is a [string]; its characters are the code points below
      256 and it is ordered character by character, as Python orders [str].
      [bytes] are [string]s too, one character per byte.
    - A decoded JSON document is a [value], a dynamically typed Python object;
      the operations the script applies to one ([x[k]], [len], slicing,
      [.get], iteration, [==], [in]) are total functions into [result], which
      says which exception Python raises where the object has the wrong type.
    - The script reads a directory and runs a compiler; both are fields of a
      [World].  [json.loads] is a parameter of the development.
    - The script only ever appends to standard output and standard error and
      raises; a computation is therefore an outcome paired with the events it
      emitted, in order. *)

From Stdlib Require Import ZArith Ascii DecimalString.
From stdpp Require Import base tactics option list strings gmap sorting.

Local Open Scope Z_scope.
Local Open Scope nat_scope.

(** ** Python strings *)

Module Str.

(** [s.startswith(prefix)] *)
Fixpoint startswith (prefix s : string) : bool :=
  match prefix, s with
  | EmptyString, _ => true
  | String a p, String b t => if decide (a = b) then startswith p t else false
  | String _ _, EmptyString => false
  end.

(** [s.endswith(suffix)] *)
Definition endswith (suffix s : string) : bool :=
  startswith (String.rev suffix) (String.rev s).

(** [s[:n]] for [0 <= n] *)
Fixpoint take (n : nat) (s : string) : string :=
  match n, s with
  | S n, String a t => String a (take n t)
  | _, _ => EmptyString
  end.

(** [s.removesuffix(suffix)]: the string without [suffix] when it ends with
    it (and [suffix] is not empty), the string itself otherwise. *)
Definition removesuffix (suffix s : string) : string :=
  if endswith suffix s
  then take (String.length s - String.length suffix) s
  else s.

(** [c * n] for a one-character string [c] *)
Fixpoint replicate (n : nat) (c : ascii) : string :=
  match n with
  | 0 => EmptyString
  | S n => String c (replicate n c)
  end.

(** [s.ljust(width)]: [s] followed by spaces up to [width] characters;
    [s] itself when it is already that long. *)
Definition ljust (s : string) (width : nat) : string :=
  s +:+ replicate (width - String.length s) " "%char.

(** [sep.join(l)] *)
Fixpoint join (sep : string) (l : list string) : string :=
  match l with
  | [] => EmptyString
  | [x] => x
  | x :: l => x +:+ sep +:+ join sep l
  end.

(** [s.encode()]: UTF-8; a code point below 128 is one byte, the others
    (below 256 here) are two. *)
Fixpoint encode (s : string) : string :=
  match s with
  | EmptyString => EmptyString
  | String c t =>
      let n := Ascii.N_of_ascii c in
      if (n <? 128)%N then String c (encode t)
      else String (Ascii.ascii_of_N (192 + n / 64))
             (String (Ascii.ascii_of_N (128 + n mod 64)) (encode t))
  end.

(** [str(z)] for an [int] *)
Definition of_Z (z : Z) : string := NilZero.string_of_int (Z.to_int z).

(** The one-character strings a [str] iterates over. *)
Fixpoint chars (s : string) : list string :=
  match s with
  | EmptyString => []
  | String c t => String c EmptyString :: chars t
  end.

(** [sorted(l)] on a list of [str]. *)
Definition sort (l : list string) : list string := merge_sort String.le l.

End Str.

(** ** Exceptions and results *)

Inductive exn : Type :=
  | OSError
  | ValueError
  | JSONDecodeError
  | KeyError
  | TypeError
  | AttributeError
  | IndexError
  | SystemExit (code : Z).

Inductive result (A : Type) : Type :=
  | Ok (a : A)
  | Raise (e : exn).
Arguments Ok {A} a.
Arguments Raise {A} e.

#[global] Instance result_ret : MRet result := λ A a, Ok a.
#[global] Instance result_bind : MBind result := λ A B f r,
  match r with
  | Ok a => f a
  | Raise e => Raise e
  end.

(** ** Decoded JSON documents *)

#[warnings="-register-all"] Inductive value : Type :=
  | VNone
  | VBool (b : bool)
  | VInt (z : Z)
  | VFloat (literal : string)
  | VStr (s : string)
  | VList (l : list value)
  | VDict (d : gmap string value).

Module Py.

(** [v == s] for a [str] [s]: only an equal [str] compares equal. *)
Definition eq_str (v : value) (s : string) : bool :=
  match v with
  | VStr t => bool_decide (t = s)
  | _ => false
  end.

(** [v in l] for a list of [str]: [any(v == s for s in l)]. *)
Definition in_strs (v : value) (l : list string) : bool :=
  existsb (eq_str v) l.

(** [v[k]] for a [str] key [k]. *)
Definition getitem (v : value) (k : string) : result value :=
  match v with
  | VDict d =>
      match d !! k with
      | Some x => Ok x
      | None => Raise KeyError
      end
  | _ => Raise TypeError
  end.

(** [v.get(k, default)] *)
Definition get (v : value) (k : string) (default : value) : result value :=
  match v with
  | VDict d => Ok (from_option id default (d !! k))
  | _ => Raise AttributeError
  end.

(** [len(v)] *)
Definition len (v : value) : result nat :=
  match v with
  | VList l => Ok (length l)
  | VStr s => Ok (String.length s)
  | VDict d => Ok (size d)
  | _ => Raise TypeError
  end.

(** [v[i : i + 2]], as the sequence of its items.  Slicing a [dict] raises
    (a slice is not hashable; [TypeError] up to Python 3.11). *)
Definition slice2 (v : value) (i : nat) : result (list value) :=
  match v with
  | VList l => Ok (take 2 (drop i l))
  | VStr s => Ok (VStr <$> take 2 (drop i (Str.chars s)))
  | _ => Raise TypeError
  end.

(** [a, b = items] *)
Definition unpack2 (items : list value) : result (value * value) :=
  match items with
  | [a; b] => Ok (a, b)
  | _ => Raise ValueError
  end.

(** [iter(v)], as the list of the items it yields. *)
Definition iter (v : value) : result (list value) :=
  match v with
  | VList l => Ok l
  | VStr s => Ok (VStr <$> Str.chars s)
  | VDict d => Ok (VStr <$> (map_to_list d).*1)
  | _ => Raise TypeError
  end.

(** [range(start, stop, step)] for a positive [step]. *)
Definition range (start stop step : nat) : list nat :=
  (λ k, start + k * step) <$> seq 0 ((stop - start + step - 1) `div` step).

(** [max(l, key=len)]: the first of the longest strings. *)
Fixpoint max_by_len (l : list string) : result string :=
  match l with
  | [] => Raise ValueError
  | x :: l =>
      match max_by_len l with
      | Ok y => Ok (if decide (String.length x < String.length y) then y else x)
      | Raise _ => Ok x
      end
  end.

End Py.

(** ** Computations: an outcome and the events emitted on the way *)

(** A line of standard error is kept as the text [eprint] was given; the two
    objects of [eprint(ident, "->", dep_idents)] are kept as objects. *)
Inductive event : Type :=
  | Stdout (text : string)
  | Stderr (line : string)
  | StderrDeps (ident dep_idents : value).

Record M (A : Type) : Type := Run { outcome : result A; events : list event }.
Arguments Run {A} outcome events.
Arguments outcome {A} m.
Arguments events {A} m.

#[global] Instance M_ret : MRet M := λ A a, Run (Ok a) [].
#[global] Instance M_bind : MBind M := λ A B f m,
  match outcome m with
  | Ok a => Run (outcome (f a)) (events m ++ events (f a))
  | Raise e => Run (Raise e) (events m)
  end.

(** A computation without events. *)
Definition lift {A} (r : result A) : M A := Run r [].

Definition raise {A} (e : exn) : M A := lift (Raise e).

(** [eprint(line)] *)
Definition eprint (line : string) : M unit := Run (Ok ()) [Stderr line].

(** [eprint(ident, "->", dep_idents)] *)
Definition eprint_deps (ident dep_idents : value) : M unit :=
  Run (Ok ()) [StderrDeps ident dep_idents].

(** [sys.stdout.write(text)] *)
Definition stdout_write (text : string) : M unit := Run (Ok ()) [Stdout text].

(** [for x in l: acc = body(acc, x)] *)
Fixpoint for_each {A B} (l : list A) (acc : B) (body : B → A → M B) : M B :=
  match l with
  | [] => mret acc
  | x :: l => acc ← body acc x; for_each l acc body
  end.

(** What a run wrote to standard output. *)
Fixpoint stdout_of (evs : list event) : string :=
  match evs with
  | [] => EmptyString
  | Stdout text :: evs => text +:+ stdout_of evs
  | _ :: evs => stdout_of evs
  end.

(** What a run wrote to standard error. *)
Fixpoint stderr_of (evs : list event) : list event :=
  match evs with
  | [] => []
  | Stdout _ :: evs => stderr_of evs
  | ev :: evs => ev :: stderr_of evs
  end.

(** ** The world the script runs in *)

(** [subprocess.CompletedProcess]: the fields the script reads. *)
Record CompletedProcess : Type := Completed { returncode : Z; stdout : string }.

Record World : Type := {
  (** [os.listdir(path)]; [None] where it raises [OSError]. *)
  os_listdir : string → option (list string);
  (** [subprocess.run(args, input=..., stdout=PIPE)]; [None] where the
      program cannot be started ([OSError]). *)
  subprocess_run : list string → string → option CompletedProcess
}.

(** ** The script *)

Definition ALLOWED_LIBS : list string := ["simd"].

(** The end of a line. *)
Definition NL : string := String "010"%char EmptyString.

Definition HEADER : string :=
  "{ libs, frameworks }: with libs; with frameworks;" +:+ NL +:+ "{" +:+ NL.

Definition FOOTER : string := "}" +:+ NL.

(** [name_from_ident(ident)]: [ident.get("swift", ident.get("clang"))]; the
    default is evaluated first. *)
Definition name_from_ident (ident : value) : result value :=
  clang ← Py.get ident "clang" VNone;
  Py.get ident "swift" clang.

(** The arguments of the compiler for one scan. *)
Definition swiftc_args (sdk : string) : list string :=
  [ "swiftc"; "-scan-dependencies"; "-"; "-sdk"; sdk;
    "-I"; sdk +:+ "/usr/lib/swift";
    "-resource-dir"; sdk +:+ "/usr/lib/swift" ].

(** The frameworks of a directory listing: lines 35 to 40. *)
Definition discover (entries : list string) : list string :=
  Str.sort (Str.removesuffix ".framework" <$>
            filter (λ framework, ¬ Str.startswith "_" framework) entries).

(** The dependencies kept for a framework, lines 114 to 119: those among the
    frameworks and [ALLOWED_LIBS], as a set, without the framework itself. *)
Definition filter_deps (frameworks : list string) (framework : string)
    (deps : list value) : gset string :=
  let allowed := frameworks ++ ALLOWED_LIBS in
  let deps : gset string :=
    list_to_set (omap (λ dep, match dep with VStr s => Some s | _ => None end)
                   (filter (λ dep, Py.in_strs dep allowed) deps)) in
  if decide (framework ∈ deps) then deps ∖ {[framework]} else deps.

(** The Nix attribute line of a framework, lines 122 to 128. *)
Definition attr_line (width : nat) (framework : string) (deps : gset string)
    : string :=
  if decide (size deps ≠ 0) then
    let deps := Str.sort (elements deps) in
    let deps := Str.join " " deps in
    "  " +:+ Str.ljust framework width +:+ " = { inherit " +:+ deps +:+ "; };" +:+ NL
  else
    "  " +:+ Str.ljust framework width +:+ " = {};" +:+ NL.

Section Generator.

(** [json.loads] on [bytes]; [None] where it raises. *)
Variable json_loads : string → option value.

(** One pair of the modules list, lines 101 to 110. *)
Definition scan_pair (framework : string) (modules : value)
    (deps : list value) (i : nat) : M (list value) :=
  '(ident, meta) ← lift (Py.slice2 modules i ≫= Py.unpack2);
  name ← lift (name_from_ident ident);
  if Py.eq_str name framework then
    dep_idents ← lift (Py.getitem meta "directDependencies");
    names ← lift (Py.iter dep_idents ≫= mapM name_from_ident);
    eprint_deps ident dep_idents;;
    mret (deps ++ names)
  else mret deps.

(** The dependencies a compiler response names, lines 92 to 110. *)
Definition parse_response (framework : string) (response : string)
    : M (list value) :=
  if decide (String.length response ≠ 0) then
    data ← lift (from_option Ok (Raise JSONDecodeError) (json_loads response));
    modules ← lift (Py.getitem data "modules");
    n ← lift (Py.len modules);
    for_each (Py.range 0 n 2) [] (scan_pair framework modules)
  else mret [].

(** The body of the loop over the frameworks, lines 48 to 128; it gives the
    line the loop appends to [output]. *)
Definition scan_framework (w : World) (sdk : string)
    (frameworks : list string) (width : nat) (framework : string)
    : M string :=
  eprint ("# scanning " +:+ framework);;
  result ← lift (from_option Ok (Raise OSError)
                   (subprocess_run w (swiftc_args sdk)
                      (Str.encode ("import " +:+ framework))));
  response ←
    (if decide (returncode result ≠ 0%Z) then
       eprint ("# Scanning " +:+ framework +:+ " failed (exit code "
               +:+ Str.of_Z (returncode result) +:+ ")");;
       mret EmptyString
     else mret (stdout result));
  deps ← parse_response framework response;
  mret (attr_line width framework (filter_deps frameworks framework deps)).

(** [scan_sdk(sdk)] *)
Definition scan_sdk (w : World) (sdk : string) : M unit :=
  entries ← lift (from_option Ok (Raise OSError)
                    (os_listdir w (sdk +:+ "/System/Library/Frameworks")));
  let frameworks := discover entries in
  longest ← lift (Py.max_by_len frameworks);
  let width := String.length longest in
  output ← for_each frameworks HEADER (λ output framework,
             line ← scan_framework w sdk frameworks width framework;
             mret (output +:+ line));
  stdout_write (output +:+ FOOTER).

(** The script run as a program, lines 134 to 139: [sys.argv] is the
    program's name followed by its arguments. *)
Definition main (w : World) (prog : string) (args : list string) : M unit :=
  let argv := prog :: args in
  if decide (length argv ≠ 2) then
    eprint ("Usage: " +:+ prog +:+ " <path to MacOSX.sdk>");;
    raise (SystemExit 64)
  else
    sdk ← lift (from_option Ok (Raise IndexError) (argv !! 1));
    scan_sdk w sdk.

(** The exit status of the process: that of [sys.exit], 1 after an
    exception nothing caught, 0 at the end of the script. *)
Definition exit_status (w : World) (prog : string) (args : list string) : Z :=
  match outcome (main w prog args) with
  | Ok _ => 0
  | Raise (SystemExit code) => code
  | Raise _ => 1
  end.

End Generator.

(** ** A decoder for a fragment of JSON

    The theorems below hold for every decoder.  Their instances are stated
    with this one, which reads the documents made of objects, arrays, the
    literals [true], [false] and [null], and strings of printable ASCII
    characters without escapes, separated by JSON white space, and decodes
    them as [json.loads] does (a repeated key keeps its last value).  It reads
    nothing else: it is not [json.loads] outside the fragment. *)

Module Json.

(** The double quote. *)
Definition quote : ascii := "034"%char.

Definition is_ws (c : ascii) : bool :=
  bool_decide (c = " "%char) || bool_decide (c = "009"%char)
  || bool_decide (c = "010"%char) || bool_decide (c = "013"%char).

Fixpoint skip_ws (s : string) : string :=
  match s with
  | String c t => if is_ws c then skip_ws t else s
  | EmptyString => s
  end.

Definition is_plain (c : ascii) : bool :=
  let n := Ascii.N_of_ascii c in
  (32 <=? n)%N && (n <? 127)%N && negb (bool_decide (c = quote))
  && negb (bool_decide (c = "\"%char)).

(** The characters of a string up to its closing quote, and what follows. *)
Fixpoint string_body (s : string) : option (string * string) :=
  match s with
  | EmptyString => None
  | String c t =>
      if bool_decide (c = quote) then Some (EmptyString, t)
      else if is_plain c then
        '(body, rest) ← string_body t; Some (String c body, rest)
      else None
  end.

(** [s] without the prefix [word]. *)
Fixpoint after (word s : string) : option string :=
  match word, s with
  | EmptyString, _ => Some s
  | String a w, String b t => if decide (a = b) then after w t else None
  | String _ _, EmptyString => None
  end.

Fixpoint parse_value (fuel : nat) (s : string) : option (value * string) :=
  match fuel with
  | 0 => None
  | S fuel =>
      match skip_ws s with
      | EmptyString => None
      | String c t =>
          if bool_decide (c = quote) then
            '(body, rest) ← string_body t; Some (VStr body, rest)
          else if bool_decide (c = "["%char) then
            match skip_ws t with
            | String "]" rest => Some (VList [], rest)
            | _ => '(l, rest) ← parse_elements fuel t; Some (VList l, rest)
            end
          else if bool_decide (c = "{"%char) then
            match skip_ws t with
            | String "}" rest => Some (VDict ∅, rest)
            | _ => '(d, rest) ← parse_members fuel ∅ t; Some (VDict d, rest)
            end
          else if bool_decide (c = "t"%char) then
            rest ← after "rue" t; Some (VBool true, rest)
          else if bool_decide (c = "f"%char) then
            rest ← after "alse" t; Some (VBool false, rest)
          else if bool_decide (c = "n"%char) then
            rest ← after "ull" t; Some (VNone, rest)
          else None
      end
  end
with parse_elements (fuel : nat) (s : string) : option (list value * string) :=
  match fuel with
  | 0 => None
  | S fuel =>
      '(v, rest) ← parse_value fuel s;
      match skip_ws rest with
      | String "," rest => '(l, rest) ← parse_elements fuel rest; Some (v :: l, rest)
      | String "]" rest => Some ([v], rest)
      | _ => None
      end
  end
with parse_members (fuel : nat) (d : gmap string value) (s : string)
    : option (gmap string value * string) :=
  match fuel with
  | 0 => None
  | S fuel =>
      match skip_ws s with
      | String c t =>
          if bool_decide (c = quote) then
            '(k, rest) ← string_body t;
            match skip_ws rest with
            | String ":" rest =>
                '(v, rest) ← parse_value fuel rest;
                match skip_ws rest with
                | String "," rest => parse_members fuel (<[k := v]> d) rest
                | String "}" rest => Some (<[k := v]> d, rest)
                | _ => None
                end
            | _ => None
            end
          else None
      | EmptyString => None
      end
  end.

Definition loads (s : string) : option value :=
  '(v, rest) ← parse_value (2 * String.length s + 2) s;
  match skip_ws rest with
  | EmptyString => Some v
  | _ => None
  end.

End Json.

(** * Notions derived from the script *)

(** The lines of the body, one after the other. *)
Definition concat_lines (lines : list string) : string :=
  foldr String.app EmptyString lines.

(** A computation that writes nothing to standard output. *)
Definition silent {A} (m : M A) : Prop := stdout_of (events m) = EmptyString.

(** The width of the name column: the length of the longest name. *)
Definition name_width (frameworks : list string) : nat :=
  match Py.max_by_len frameworks with
  | Ok longest => String.length longest
  | Raise _ => 0
  end.

(** The response the script parses: nothing after a failed scan. *)
Definition response_of (result : CompletedProcess) : string :=
  if decide (returncode result ≠ 0%Z) then EmptyString else stdout result.

(** The line of a framework without dependencies. *)
Definition empty_line (width : nat) (framework : string) : string :=
  "  " +:+ Str.ljust framework width +:+ " = {};" +:+ NL.

(** The names the loop goes through, before sorting. *)
Definition stripped (entries : list string) : list string :=
  Str.removesuffix ".framework" <$>
    filter (λ framework, ¬ Str.startswith "_" framework) entries.

(** The body of the output for given names and their dependencies. *)
Definition body (width : nat) (names : list string)
    (depsets : list (gset string)) : string :=
  concat_lines (zip_with (attr_line width) names depsets).

(** The names an attribute line lists, in the order it lists them. *)
Definition rendered_deps (deps : gset string) : list string :=
  Str.sort (elements deps).

(** What the loop body finds for a framework: the compiler's answer,
    parsed and filtered. *)
Definition framework_deps (json_loads : string → option value) (w : World) (sdk : string)
    (frameworks : list string) (framework : string) : result (gset string) :=
  match subprocess_run w (swiftc_args sdk)
          (Str.encode ("import " +:+ framework)) with
  | None => Raise OSError
  | Some result =>
      deps ← outcome (parse_response json_loads framework (response_of result));
      Ok (filter_deps frameworks framework deps)
  end.

(** The names of the direct dependencies in a module's metadata. *)
Definition direct_dependencies (meta : value) : result (list value) :=
  dep_idents ← Py.getitem meta "directDependencies";
  Py.iter dep_idents ≫= mapM name_from_ident.

(** A modules list, from its pairs: the identifier of pair [k] is item [2k],
    its metadata item [2k + 1]. *)
Fixpoint flat (pairs : list (value * value)) : list value :=
  match pairs with
  | [] => []
  | (ident, meta) :: pairs => ident :: meta :: flat pairs
  end.

(** What a pair adds to the dependencies of a framework: the names of its
    direct dependencies when its identifier resolves to the framework's name,
    nothing otherwise. *)
Definition contribution (framework : string) (pair : value * value)
    (names : list value) : Prop :=
  ∃ name, name_from_ident pair.1 = Ok name ∧
    if Py.eq_str name framework
    then direct_dependencies pair.2 = Ok names
    else names = [].

(** A response the loop over the modules cannot read, and the exception it
    ends with: bytes that are not JSON, a document without [modules], a
    matching pair without [directDependencies]. *)
Inductive malformed (json_loads : string → option value) (framework : string)
    (response : string) : exn → Prop :=
  | Unparseable :
      json_loads response = None →
      malformed json_loads framework response JSONDecodeError
  | NoModules data e :
      json_loads response = Some data →
      Py.getitem data "modules" = Raise e →
      malformed json_loads framework response e
  | NoDirectDependencies data pre ident meta post contribs name e :
      json_loads response = Some data →
      Py.getitem data "modules"
        = Ok (VList (flat (pre ++ (ident, meta) :: post))) →
      Forall2 (contribution framework) pre contribs →
      name_from_ident ident = Ok name →
      Py.eq_str name framework = true →
      Py.getitem meta "directDependencies" = Raise e →
      malformed json_loads framework response e.

(** A computation that emits nothing but standard error events. *)
Definition quiet {A} (m : M A) : Prop := stderr_of (events m) = events m.

(** A result that is not the exception of [sys.exit]. *)
Definition no_exit {A} (r : result A) : Prop :=
  match r with
  | Raise (SystemExit _) => False
  | _ => True
  end.

(** The events of the scans of some frameworks, one scan after the other. *)
Definition scan_events (json_loads : string → option value) (w : World)
    (sdk : string) (frameworks : list string) (width : nat)
    (scanned : list string) : list event :=
  concat ((λ framework,
             events (scan_framework json_loads w sdk frameworks width framework))
          <$> scanned).

(** * The notions of the specification *)

(** The framework names of a listing as the specification describes them:
    the entries that do not start with an underscore, without the suffix,
    without duplicates, in lexicographic order. *)
Definition spec_framework_names (entries : list string) : list string :=
  Str.sort (remove_dups (stripped entries)).

(** An attribute line as the specification words it: the name padded to the
    width after two spaces, then the empty attribute set or the [inherit] of
    the dependency names separated by spaces. *)
Definition spec_line (width : nat) (name : string) (deps : list string)
    : string :=
  let padded := name +:+ Str.replicate (width - String.length name) " "%char in
  match deps with
  | [] => "  " +:+ padded +:+ " = {};" +:+ NL
  | _ => "  " +:+ padded +:+ " = { inherit " +:+ Str.join " " deps +:+ "; };" +:+ NL
  end.

(** The name of a module identifier as the specification words it: the Swift
    name when there is one, the Clang name only when there is none. *)
Definition spec_name (ident : gmap string value) : value :=
  match ident !! "swift" with
  | Some name => name
  | None => default VNone (ident !! "clang")
  end.

(** The claim C2 as it is stated: the body has one line for each of the
    specification's framework names, in their order. *)
Definition one_line_per_name (json_loads : string → option value) : Prop :=
  ∀ (w : World) (sdk : string) (entries : list string),
    os_listdir w (sdk +:+ "/System/Library/Frameworks") = Some entries →
    outcome (scan_sdk json_loads w sdk) = Ok () →
    ∃ depsets : list (gset string),
      length depsets = length (spec_framework_names entries) ∧
      stdout_of (events (scan_sdk json_loads w sdk))
        = HEADER
          +:+ body (name_width (spec_framework_names entries))
                (spec_framework_names entries) depsets
          +:+ FOOTER.

(** The claim C1 as it is stated: whatever the compiler answers for each
    framework, the scan ends normally with a line for every framework. *)
Definition every_failure_recovers (json_loads : string → option value) : Prop :=
  ∀ (w : World) (sdk : string) (entries : list string),
    os_listdir w (sdk +:+ "/System/Library/Frameworks") = Some entries →
    discover entries ≠ [] →
    (∀ framework, framework ∈ discover entries →
       is_Some (subprocess_run w (swiftc_args sdk)
                  (Str.encode ("import " +:+ framework)))) →
    outcome (scan_sdk json_loads w sdk) = Ok () ∧
    ∃ depsets : list (gset string),
      length depsets = length (discover entries) ∧
      stdout_of (events (scan_sdk json_loads w sdk))
        = HEADER
          +:+ body (name_width (discover entries)) (discover entries) depsets
          +:+ FOOTER.

(** * Sample worlds *)

Module Sample.

(** A world with one SDK: its frameworks directory lists [entries], and the
    compiler answers the scan of a framework as [table] says (it cannot be
    started for a framework the table does not have). *)
Definition world (sdk : string) (entries : list string)
    (table : list (string * CompletedProcess)) : World := {|
  os_listdir path :=
    if decide (path = sdk +:+ "/System/Library/Frameworks")
    then Some entries else None;
  subprocess_run args input :=
    if decide (args = swiftc_args sdk) then
      snd <$> (snd <$> list_find
                 (λ row, Str.encode ("import " +:+ row.1) = input) table)
    else None
|}.

(** A JSON document, written with apostrophes for its double quotes. *)
Fixpoint json (s : string) : string :=
  match s with
  | EmptyString => EmptyString
  | String c t =>
      String (if decide (c = "'"%char) then Json.quote else c) (json t)
  end.

(** The compiler's answer for [Foo]: a Swift overlay and a Clang module of
    that name, and the Clang module of [Bar]. *)
Definition foo_response : string :=
  json ("{'modules': ["
    +:+ "{'swift': 'Foo'}, {'directDependencies': ["
    +:+ "{'clang': 'Foo'}, {'swift': 'Bar'}, {'clang': 'Baz'}]}, "
    +:+ "{'clang': 'Bar'}, {'directDependencies': [{'clang': 'Zed'}]}, "
    +:+ "{'clang': 'Foo'}, {'directDependencies': ["
    +:+ "{'clang': 'simd'}, {'clang': 'Bar'}]}"
    +:+ "]}").

(** The SDK of the specification's scenario: [Foo] depends on [Bar] and on
    modules that are no frameworks; the scan of [Bar] fails. *)
Definition scenario : World :=
  world "/sdk" ["Foo.framework"; "_Hidden.framework"; "Bar.framework"]
    [ ("Foo", Completed 0 foo_response); ("Bar", Completed 1 "<unknown>:0: error") ].

(** An SDK whose frameworks directory has hidden entries only. *)
Definition hidden_only : World :=
  world "/sdk" ["_Hidden.framework"; "_Private"] [].

(** An SDK with a bare entry and a bundle of the same name; both scans
    fail. *)
Definition twins : World :=
  world "/sdk" ["Foo"; "Foo.framework"] [ ("Foo", Completed 1 EmptyString) ].

(** SDKs with one framework, whose scan exits with status 0 and prints
    [response]. *)
Definition single (response : string) : World :=
  world "/sdk" ["Foo.framework"] [ ("Foo", Completed 0 response) ].

End Sample.

(** * Properties *)

(** ** Strings *)

Lemma app_cons_str (c : ascii) (s t : string) :
  String c s +:+ t = String c (s +:+ t).
Proof. reflexivity. Qed.

Lemma app_assoc_str (s t u : string) : (s +:+ t) +:+ u = s +:+ (t +:+ u).
Proof. induction s as [|c s IH]; [done|]. by rewrite !app_cons_str, IH. Qed.

Lemma app_empty_r (s : string) : s +:+ EmptyString = s.
Proof. induction s as [|c s IH]; [done|]. by rewrite app_cons_str, IH. Qed.

Lemma length_app_str (s t : string) :
  String.length (s +:+ t) = String.length s + String.length t.
Proof.
  induction s as [|c s IH]; [done|]. rewrite app_cons_str. cbn. by rewrite IH.
Qed.

Lemma length_replicate_str n c : String.length (Str.replicate n c) = n.
Proof. induction n as [|n IH]; [done|]. cbn. by rewrite IH. Qed.

Lemma ljust_length (s : string) (width : nat) :
  String.length s ≤ width → String.length (Str.ljust s width) = width.
Proof.
  intros Hle. unfold Str.ljust.
  rewrite length_app_str, length_replicate_str. lia.
Qed.

(** ** Sorting *)

Lemma sort_sorted (l : list string) : Sorted String.le (Str.sort l).
Proof. apply (Sorted_merge_sort String.le). Qed.

Lemma sort_perm (l : list string) : Str.sort l ≡ₚ l.
Proof. apply merge_sort_Permutation. Qed.

Lemma sort_elem_of (l : list string) (x : string) : x ∈ Str.sort l ↔ x ∈ l.
Proof. by rewrite sort_perm. Qed.

(** The result of sorting depends on the items only, not on their order. *)
Lemma sort_permutation_eq (l k : list string) : l ≡ₚ k → Str.sort l = Str.sort k.
Proof.
  intros Hperm.
  apply (Sorted_unique String.le); [apply sort_sorted..|].
  by rewrite !sort_perm.
Qed.

(** ** The longest name *)

Lemma max_by_len_ok (l : list string) :
  l ≠ [] →
  ∃ longest, Py.max_by_len l = Ok longest ∧ longest ∈ l ∧
    Forall (λ x, String.length x ≤ String.length longest) l.
Proof.
  induction l as [|x l IH]; [done|]. intros _. cbn.
  destruct l as [|y l].
  { exists x. cbn. split_and!; [done|by left|]. by repeat constructor. }
  destruct IH as (m & -> & Hin & Hall); [done|].
  case_decide as Hlt.
  - exists m. split_and!; [done|by right|]. constructor; [lia|done].
  - exists x. split_and!; [done|by left|].
    constructor; [done|]. eapply Forall_impl; [exact Hall|]. cbn. lia.
Qed.

(** ** Computations *)

Lemma outcome_bind {A B} (m : M A) (f : A → M B) :
  outcome (m ≫= f) = outcome m ≫= (λ a, outcome (f a)).
Proof. unfold mbind, M_bind, result_bind. by destruct (outcome m). Qed.

Lemma outcome_lift {A} (r : result A) : outcome (lift r) = r.
Proof. done. Qed.

Lemma bind_Ok {A B} (a : A) (f : A → result B) : Ok a ≫= f = f a.
Proof. done. Qed.

Lemma stdout_of_app (evs1 evs2 : list event) :
  stdout_of (evs1 ++ evs2) = stdout_of evs1 +:+ stdout_of evs2.
Proof.
  induction evs1 as [|[text|line|ident deps] evs1 IH]; cbn; [done| |done..].
  by rewrite IH, app_assoc_str.
Qed.

Lemma silent_lift {A} (r : result A) : silent (lift r).
Proof. done. Qed.

Lemma silent_ret {A} (a : A) : silent (mret a).
Proof. done. Qed.

Lemma silent_eprint line : silent (eprint line).
Proof. done. Qed.

Lemma silent_bind {A B} (m : M A) (f : A → M B) :
  silent m → (∀ a, silent (f a)) → silent (m ≫= f).
Proof.
  unfold silent, mbind, M_bind. intros Hm Hf.
  destruct (outcome m); cbn; [|done].
  by rewrite stdout_of_app, Hm, Hf.
Qed.

Lemma silent_for_each {A B} (l : list A) (acc : B) (body : B → A → M B) :
  (∀ acc x, silent (body acc x)) → silent (for_each l acc body).
Proof.
  intros Hbody. revert acc.
  induction l as [|x l IH]; intros acc; cbn; [done|].
  by apply silent_bind.
Qed.

(** What a computation that ends with an exception wrote before it. *)
Lemma stdout_of_bind {A B} (m : M A) (f : A → M B) :
  silent m →
  stdout_of (events (m ≫= f)) =
    match outcome m with
    | Ok a => stdout_of (events (f a))
    | Raise _ => EmptyString
    end.
Proof.
  unfold silent, mbind, M_bind. intros Hm.
  destruct (outcome m); cbn; [|done].
  by rewrite stdout_of_app, Hm.
Qed.

Create HintDb silent.
#[local] Hint Resolve silent_lift silent_ret silent_eprint silent_bind
  silent_for_each : silent.

(** ** The loop over the frameworks *)

Lemma name_width_bound (frameworks : list string) (framework : string) :
  framework ∈ frameworks → String.length framework ≤ name_width frameworks.
Proof.
  intros Hin. unfold name_width.
  destruct (max_by_len_ok frameworks) as (m & -> & _ & Hall).
  { intros ->. by apply not_elem_of_nil in Hin. }
  by apply (proj1 (Forall_forall _ _) Hall).
Qed.

Lemma filter_deps_nil (frameworks : list string) (framework : string) :
  filter_deps frameworks framework [] = ∅.
Proof. unfold filter_deps. cbn. by rewrite decide_False by set_solver. Qed.

Section GeneratorFacts.

Variable json_loads : string → option value.

Lemma for_each_lines_ok (g : string → M string) frameworks lines acc :
  Forall2 (λ framework line, outcome (g framework) = Ok line) frameworks lines →
  outcome (for_each frameworks acc
             (λ output framework, line ← g framework; mret (output +:+ line)))
  = Ok (acc +:+ concat_lines lines).
Proof.
  intros Hall. revert acc.
  induction Hall as [|fw line fws lines Hfw _ IH]; intros acc; cbn.
  { by rewrite app_empty_r. }
  rewrite !outcome_bind, Hfw. cbn.
  rewrite IH. unfold concat_lines. cbn [foldr]. by rewrite app_assoc_str.
Qed.

Lemma for_each_lines_inv (g : string → M string) frameworks acc output :
  outcome (for_each frameworks acc
             (λ output framework, line ← g framework; mret (output +:+ line)))
  = Ok output →
  ∃ lines,
    Forall2 (λ framework line, outcome (g framework) = Ok line) frameworks lines ∧
    output = acc +:+ concat_lines lines.
Proof.
  revert acc. induction frameworks as [|fw fws IH]; intros acc; cbn.
  { intros [= <-]. exists []. split; [constructor|]. by rewrite app_empty_r. }
  rewrite !outcome_bind.
  destruct (outcome (g fw)) as [line|e] eqn:Hfw; cbn; [|done].
  intros (lines & Hall & ->)%IH.
  exists (line :: lines). split; [by constructor|].
  unfold concat_lines. cbn [foldr]. by rewrite app_assoc_str.
Qed.

(** *** One framework *)

Lemma silent_scan_pair framework modules deps i :
  silent (scan_pair framework modules deps i).
Proof.
  unfold scan_pair.
  apply silent_bind; [done|]. intros [ident meta].
  apply silent_bind; [done|]. intros name.
  destruct (Py.eq_str name framework); [|done].
  repeat (apply silent_bind; [done|]; intros ?). done.
Qed.

Lemma silent_parse_response framework response :
  silent (parse_response json_loads framework response).
Proof.
  unfold parse_response. case_decide; [|done].
  repeat (apply silent_bind; [done|]; intros ?).
  apply silent_for_each. intros. apply silent_scan_pair.
Qed.

Lemma silent_scan_framework w sdk frameworks width framework :
  silent (scan_framework json_loads w sdk frameworks width framework).
Proof.
  unfold scan_framework.
  apply silent_bind; [done|]. intros _.
  apply silent_bind; [done|]. intros result.
  apply silent_bind.
  { case_decide; [|done]. by apply silent_bind. }
  intros response. apply silent_bind; [apply silent_parse_response|done].
Qed.

#[local] Hint Resolve silent_scan_pair silent_parse_response
  silent_scan_framework : silent.

(** The outcome of the loop body: the compiler's response decides it. *)
Lemma scan_framework_outcome w sdk frameworks width framework :
  outcome (scan_framework json_loads w sdk frameworks width framework) =
    match subprocess_run w (swiftc_args sdk)
            (Str.encode ("import " +:+ framework)) with
    | None => Raise OSError
    | Some result =>
        deps ← outcome (parse_response json_loads framework (response_of result));
        Ok (attr_line width framework (filter_deps frameworks framework deps))
    end.
Proof.
  unfold scan_framework. rewrite !outcome_bind. cbn.
  destruct (subprocess_run _ _ _) as [result|]; cbn; [|done].
  rewrite !outcome_bind. unfold response_of.
  case_decide; cbn; by rewrite outcome_bind.
Qed.

Lemma parse_response_empty framework :
  parse_response json_loads framework EmptyString = mret [].
Proof. done. Qed.

(** A scan that failed, or printed nothing, gives the empty line. *)
Lemma scan_framework_no_response w sdk frameworks width framework result :
  subprocess_run w (swiftc_args sdk) (Str.encode ("import " +:+ framework))
    = Some result →
  response_of result = EmptyString →
  outcome (scan_framework json_loads w sdk frameworks width framework)
    = Ok (empty_line width framework).
Proof.
  intros Hrun Hempty.
  rewrite scan_framework_outcome, Hrun, Hempty, parse_response_empty. cbn.
  by rewrite filter_deps_nil.
Qed.

(** *** The whole scan *)

(** The scan as a function of the listing and of the lines of the loop. *)
Lemma scan_sdk_complete w sdk entries lines :
  os_listdir w (sdk +:+ "/System/Library/Frameworks") = Some entries →
  discover entries ≠ [] →
  Forall2 (λ framework line,
      outcome (scan_framework json_loads w sdk (discover entries)
                 (name_width (discover entries)) framework) = Ok line)
    (discover entries) lines →
  outcome (scan_sdk json_loads w sdk) = Ok () ∧
  stdout_of (events (scan_sdk json_loads w sdk))
    = HEADER +:+ concat_lines lines +:+ FOOTER.
Proof.
  intros Hls Hne Hlines. unfold scan_sdk.
  destruct (max_by_len_ok _ Hne) as (longest & Hmax & _).
  assert (name_width (discover entries) = String.length longest) as Hw.
  { unfold name_width. by rewrite Hmax. }
  apply (for_each_lines_ok _ _ _ HEADER) in Hlines.
  rewrite Hw in Hlines.
  split.
  - rewrite outcome_bind, Hls, outcome_lift. cbn [from_option].
    rewrite bind_Ok. cbv beta zeta.
    rewrite outcome_bind, Hmax, outcome_lift, bind_Ok.
    rewrite outcome_bind, Hlines. done.
  - rewrite stdout_of_bind, Hls, outcome_lift by done. cbn [from_option].
    cbv beta iota zeta.
    rewrite stdout_of_bind, Hmax, outcome_lift by done.
    rewrite stdout_of_bind.
    2:{ apply silent_for_each. intros. apply silent_bind; [|done].
        apply silent_scan_framework. }
    rewrite Hlines. cbn. by rewrite app_empty_r, app_assoc_str.
Qed.

(** A scan that ends normally went through every step. *)
Lemma scan_sdk_inv w sdk :
  outcome (scan_sdk json_loads w sdk) = Ok () →
  ∃ entries lines,
    os_listdir w (sdk +:+ "/System/Library/Frameworks") = Some entries ∧
    discover entries ≠ [] ∧
    Forall2 (λ framework line,
        outcome (scan_framework json_loads w sdk (discover entries)
                   (name_width (discover entries)) framework) = Ok line)
      (discover entries) lines.
Proof.
  unfold scan_sdk. rewrite outcome_bind, outcome_lift.
  destruct (os_listdir w _) as [entries|]; cbn [from_option];
    [rewrite bind_Ok|done]. cbv beta zeta.
  rewrite outcome_bind, outcome_lift.
  destruct (Py.max_by_len (discover entries)) as [longest|e] eqn:Hmax;
    [rewrite bind_Ok|done].
  rewrite outcome_bind.
  destruct (outcome (for_each _ _ _)) as [output|e] eqn:Hloop; [|done].
  intros _. apply for_each_lines_inv in Hloop as (lines & Hall & _).
  exists entries, lines. split_and!; [done| |].
  - intros Hnil. by rewrite Hnil in Hmax.
  - unfold name_width. by rewrite Hmax.
Qed.

(** A scan that ends with an exception wrote nothing to standard output. *)
Lemma scan_sdk_raise_stdout w sdk e :
  outcome (scan_sdk json_loads w sdk) = Raise e →
  stdout_of (events (scan_sdk json_loads w sdk)) = EmptyString.
Proof.
  unfold scan_sdk. rewrite outcome_bind, stdout_of_bind, outcome_lift by done.
  destruct (os_listdir w _) as [entries|]; cbn [from_option];
    [rewrite bind_Ok|done]. cbv beta iota zeta.
  rewrite outcome_bind, stdout_of_bind, outcome_lift by done.
  destruct (Py.max_by_len (discover entries)) as [longest|e'] eqn:Hmax;
    [rewrite bind_Ok|done].
  rewrite outcome_bind, stdout_of_bind.
  2:{ auto with silent. }
  by destruct (outcome (for_each _ _ _)).
Qed.

End GeneratorFacts.

(** ** Discovery *)

Lemma discover_sorted (entries : list string) :
  Sorted String.le (discover entries).
Proof. apply sort_sorted. Qed.

Lemma discover_perm (entries : list string) :
  discover entries ≡ₚ stripped entries.
Proof. apply sort_perm. Qed.

Lemma elem_of_discover (entries : list string) (name : string) :
  name ∈ discover entries ↔
  ∃ entry, entry ∈ entries ∧ Str.startswith "_" entry = false ∧
           name = Str.removesuffix ".framework" entry.
Proof.
  rewrite discover_perm. unfold stripped.
  rewrite list_elem_of_fmap. split.
  - intros (entry & -> & [Hnot Hin]%list_elem_of_filter).
    exists entry. split_and!; [done| |done].
    by destruct (Str.startswith "_" entry).
  - intros (entry & Hin & Hnot & ->). exists entry. split; [done|].
    apply list_elem_of_filter. split; [|done]. rewrite Hnot. exact id.
Qed.

Lemma discover_permutation (entries1 entries2 : list string) :
  entries1 ≡ₚ entries2 → discover entries1 = discover entries2.
Proof.
  intros Hperm. apply sort_permutation_eq. unfold stripped. by rewrite Hperm.
Qed.

(** ** The dependencies kept on a line *)

Lemma in_strs_spec (dep : value) (allowed : list string) :
  Py.in_strs dep allowed ↔ ∃ s, dep = VStr s ∧ s ∈ allowed.
Proof.
  unfold Py.in_strs. rewrite existb_True, Exists_exists. split.
  - intros (s & Hin & Heq). destruct dep; try done.
    cbn in Heq. apply bool_decide_unpack in Heq as ->. eauto.
  - intros (s & -> & Hin). exists s. split; [done|].
    cbn. by apply bool_decide_pack.
Qed.

Lemma elem_of_filter_deps frameworks framework deps (dep : string) :
  dep ∈ filter_deps frameworks framework deps ↔
  VStr dep ∈ deps ∧ (dep ∈ frameworks ∨ dep ∈ ALLOWED_LIBS) ∧ dep ≠ framework.
Proof.
  assert (∀ d : string,
    d ∈ omap (λ dep, match dep with VStr s => Some s | _ => None end)
          (filter (λ dep, Py.in_strs dep (frameworks ++ ALLOWED_LIBS)) deps) ↔
    VStr d ∈ deps ∧ (d ∈ frameworks ∨ d ∈ ALLOWED_LIBS)) as Hkept.
  { intros d. rewrite list_elem_of_omap. split.
    - intros (v & [Hallowed Hin]%list_elem_of_filter & Hstr).
      destruct v; try done. injection Hstr as ->.
      apply in_strs_spec in Hallowed as (s & [= <-] & Hs).
      by apply elem_of_app in Hs.
    - intros [Hin Hallowed]. exists (VStr d). split; [|done].
      apply list_elem_of_filter. split; [|done].
      apply in_strs_spec. exists d. split; [done|]. by apply elem_of_app. }
  unfold filter_deps. cbv zeta. case_decide as Hself.
  - rewrite elem_of_difference, elem_of_list_to_set, Hkept, elem_of_singleton.
    tauto.
  - rewrite elem_of_list_to_set, Hkept. split; [|tauto].
    intros [Hin Hallowed]. split_and!; [done..|].
    intros ->. apply Hself. by rewrite elem_of_list_to_set, Hkept.
Qed.

Lemma elem_of_rendered_deps (deps : gset string) (dep : string) :
  dep ∈ rendered_deps deps ↔ dep ∈ deps.
Proof. unfold rendered_deps. by rewrite sort_elem_of, elem_of_elements. Qed.

Lemma rendered_deps_NoDup (deps : gset string) : NoDup (rendered_deps deps).
Proof.
  unfold rendered_deps. rewrite sort_perm. apply NoDup_elements.
Qed.

Lemma rendered_deps_sorted (deps : gset string) :
  Sorted String.le (rendered_deps deps).
Proof. apply sort_sorted. Qed.

Lemma rendered_deps_nil (deps : gset string) :
  rendered_deps deps = [] ↔ deps = ∅.
Proof.
  unfold rendered_deps. split.
  - intros Hnil. apply leibniz_equiv, elements_empty_inv.
    apply Permutation_nil_r. by rewrite <- sort_perm, Hnil.
  - intros ->. by rewrite elements_empty.
Qed.

Lemma attr_line_spec (width : nat) (framework : string) (deps : gset string) :
  attr_line width framework deps
  = spec_line width framework (rendered_deps deps).
Proof.
  unfold attr_line, spec_line. fold (rendered_deps deps).
  case_decide as Hsize.
  - destruct (rendered_deps deps) eqn:Hdeps; [|done].
    apply rendered_deps_nil in Hdeps as ->. by rewrite size_empty in Hsize.
  - assert (deps = ∅) as ->.
    { apply leibniz_equiv, size_empty_inv. lia. }
    done.
Qed.

(** ** The dependencies of a framework in a world *)

Section Dependencies.

Variable json_loads : string → option value.

Lemma scan_framework_deps w sdk frameworks width framework :
  outcome (scan_framework json_loads w sdk frameworks width framework)
  = deps ← framework_deps json_loads w sdk frameworks framework;
    Ok (attr_line width framework deps).
Proof.
  rewrite scan_framework_outcome. unfold framework_deps.
  destruct (subprocess_run _ _ _); [|done].
  by destruct (outcome (parse_response _ _ _)).
Qed.

Lemma lines_of_depsets w sdk frameworks width names depsets :
  Forall2 (λ framework deps,
      framework_deps json_loads w sdk frameworks framework = Ok deps) names depsets →
  Forall2 (λ framework line,
      outcome (scan_framework json_loads w sdk frameworks width framework)
      = Ok line)
    names (zip_with (attr_line width) names depsets).
Proof.
  induction 1 as [|fw deps fws depsets Hfw _ IH]; cbn [zip_with];
    constructor; [|done].
  by rewrite scan_framework_deps, Hfw.
Qed.

Lemma scan_sdk_output w sdk entries depsets :
  os_listdir w (sdk +:+ "/System/Library/Frameworks") = Some entries →
  discover entries ≠ [] →
  Forall2 (λ framework deps,
      framework_deps json_loads w sdk (discover entries) framework = Ok deps)
    (discover entries) depsets →
  outcome (scan_sdk json_loads w sdk) = Ok () ∧
  stdout_of (events (scan_sdk json_loads w sdk))
    = HEADER +:+ body (name_width (discover entries)) (discover entries) depsets
      +:+ FOOTER.
Proof.
  intros Hls Hne Hdeps. apply (scan_sdk_complete _ _ _ entries); [done..|].
  by apply lines_of_depsets.
Qed.

End Dependencies.

(** * The properties of the specification *)

(** ** No frameworks *)

Lemma discover_hidden (entries : list string) :
  Forall (λ entry, Str.startswith "_" entry = true) entries →
  discover entries = [].
Proof.
  intros Hall. unfold discover.
  replace (filter _ entries) with (@nil string); [done|].
  symmetry. induction Hall as [|entry entries Hentry _ IH]; [done|].
  rewrite filter_cons_False; [done|]. rewrite Hentry. by intros Hnot.
Qed.

Lemma main_one_argument (json_loads : string → option value)
    (w : World) (prog sdk : string) :
  outcome (main json_loads w prog [sdk]) = outcome (scan_sdk json_loads w sdk) ∧
  events (main json_loads w prog [sdk]) = events (scan_sdk json_loads w sdk).
Proof.
  unfold main. cbn. by destruct (outcome (scan_sdk json_loads w sdk)).
Qed.

(** C10. If the frameworks directory has no entry without a leading
    underscore, the width computation takes the maximum of an empty sequence
    and raises [ValueError]: the script ends abnormally (exit status 1) and
    writes nothing to standard output, neither header nor footer. *)
Theorem empty_listing_raises (json_loads : string → option value)
    (w : World) (prog sdk : string) (entries : list string) :
  os_listdir w (sdk +:+ "/System/Library/Frameworks") = Some entries →
  Forall (λ entry, Str.startswith "_" entry = true) entries →
  outcome (scan_sdk json_loads w sdk) = Raise ValueError ∧
  stdout_of (events (scan_sdk json_loads w sdk)) = EmptyString ∧
  exit_status json_loads w prog [sdk] = 1%Z ∧
  stdout_of (events (main json_loads w prog [sdk])) = EmptyString.
Proof.
  intros Hls Hhidden%discover_hidden.
  assert (outcome (scan_sdk json_loads w sdk) = Raise ValueError) as Hraise.
  { unfold scan_sdk. rewrite outcome_bind, Hls, outcome_lift. cbn [from_option].
    rewrite bind_Ok. cbv beta zeta. by rewrite outcome_bind, Hhidden. }
  pose proof (scan_sdk_raise_stdout json_loads w sdk _ Hraise) as Hout.
  split_and!; [done..| |].
  - unfold exit_status.
    destruct (main_one_argument json_loads w prog sdk) as [-> _].
    by rewrite Hraise.
  - by destruct (main_one_argument json_loads w prog sdk) as [_ ->].
Qed.

Lemma empty_listing_raises_witness :
  outcome (scan_sdk Json.loads Sample.hidden_only "/sdk") = Raise ValueError ∧
  stdout_of (events (scan_sdk Json.loads Sample.hidden_only "/sdk")) = EmptyString ∧
  exit_status Json.loads Sample.hidden_only "gen-frameworks-baseline.py" ["/sdk"]
    = 1%Z ∧
  stdout_of (events (main Json.loads Sample.hidden_only
                       "gen-frameworks-baseline.py" ["/sdk"])) = EmptyString.
Proof.
  apply (empty_listing_raises Json.loads Sample.hidden_only
           "gen-frameworks-baseline.py" "/sdk" ["_Hidden.framework"; "_Private"]).
  - reflexivity.
  - repeat constructor.
Defined.

(** ** The command line *)

(** C4. With an argument count other than one, the script exits with status
    64, prints the usage text to standard error and writes nothing to
    standard output.  With one argument it scans that SDK; when the scan
    ends normally the exit status is 0, and it does so whatever exit status
    the compiler had for each framework. *)
Theorem exit_statuses (json_loads : string → option value)
    (w : World) (prog : string) :
  (∀ args, length args ≠ 1 →
     exit_status json_loads w prog args = 64%Z ∧
     stderr_of (events (main json_loads w prog args))
       = [Stderr ("Usage: " +:+ prog +:+ " <path to MacOSX.sdk>")] ∧
     stdout_of (events (main json_loads w prog args)) = EmptyString) ∧
  (∀ sdk,
     events (main json_loads w prog [sdk]) = events (scan_sdk json_loads w sdk) ∧
     (outcome (scan_sdk json_loads w sdk) = Ok () →
      exit_status json_loads w prog [sdk] = 0%Z)) ∧
  (∀ sdk entries,
     os_listdir w (sdk +:+ "/System/Library/Frameworks") = Some entries →
     discover entries ≠ [] →
     (∀ framework, framework ∈ discover entries →
        ∃ result, subprocess_run w (swiftc_args sdk)
                    (Str.encode ("import " +:+ framework)) = Some result ∧
                  returncode result ≠ 0%Z) →
     exit_status json_loads w prog [sdk] = 0%Z).
Proof.
  assert (∀ sdk, outcome (scan_sdk json_loads w sdk) = Ok () →
                 exit_status json_loads w prog [sdk] = 0%Z) as Hok.
  { intros sdk Hscan. unfold exit_status.
    destruct (main_one_argument json_loads w prog sdk) as [-> _].
    by rewrite Hscan. }
  split_and!.
  - intros args Hlen. unfold exit_status, main.
    rewrite decide_True by (cbn; lia). done.
  - intros sdk. split; [apply main_one_argument|apply Hok].
  - intros sdk entries Hls Hne Hfail. apply Hok.
    eapply (scan_sdk_complete json_loads w sdk entries
              (empty_line (name_width (discover entries)) <$> discover entries));
      [done..|].
    apply Forall2_fmap_r, Forall_Forall2_diag, Forall_forall.
    intros framework (result & Hrun & Hcode)%Hfail.
    apply (scan_framework_no_response _ _ _ _ _ _ result); [done|].
    unfold response_of. by rewrite decide_True.
Qed.

Lemma exit_statuses_witness :
  exit_status Json.loads Sample.scenario "gen-frameworks-baseline.py" [] = 64%Z ∧
  exit_status Json.loads Sample.scenario "gen-frameworks-baseline.py"
    ["/sdk"; "extra"] = 64%Z ∧
  exit_status Json.loads Sample.scenario "gen-frameworks-baseline.py" ["/sdk"]
    = 0%Z.
Proof.
  destruct (exit_statuses Json.loads Sample.scenario
              "gen-frameworks-baseline.py") as (Husage & Hscan & _).
  split_and!.
  - apply (Husage []). cbn. lia.
  - apply (Husage ["/sdk"; "extra"]). cbn. lia.
  - apply (Hscan "/sdk"). vm_compute. reflexivity.
Defined.

(** ** Module identifiers *)

Lemma name_from_ident_dict (ident : gmap string value) :
  name_from_ident (VDict ident) = Ok (spec_name ident).
Proof.
  unfold name_from_ident, spec_name. cbn.
  by destruct (ident !! "swift"), (ident !! "clang").
Qed.

Lemma mapM_name_from_ident (idents : list (gmap string value)) :
  mapM name_from_ident (VDict <$> idents) = Ok (spec_name <$> idents).
Proof.
  induction idents as [|ident idents IH]; [done|].
  cbn [fmap list_fmap mapM]. by rewrite name_from_ident_dict, bind_Ok, IH.
Qed.

(** The outcome of one step of the loop over the modules. *)
Lemma scan_pair_outcome framework items deps i ident meta :
  take 2 (drop i items) = [ident; meta] →
  outcome (scan_pair framework (VList items) deps i) =
    name ← name_from_ident ident;
    if Py.eq_str name framework
    then names ← direct_dependencies meta; Ok (deps ++ names)
    else Ok deps.
Proof.
  intros Hslice. unfold scan_pair.
  rewrite outcome_bind, outcome_lift. cbn [Py.slice2]. rewrite bind_Ok, Hslice.
  cbn [Py.unpack2]. rewrite bind_Ok, outcome_bind, outcome_lift.
  destruct (name_from_ident ident) as [name|e]; [rewrite !bind_Ok|done].
  destruct (Py.eq_str name framework); [|done].
  rewrite outcome_bind, outcome_lift. unfold direct_dependencies.
  destruct (Py.getitem meta "directDependencies") as [dep_idents|e];
    [rewrite !bind_Ok|done].
  rewrite outcome_bind, outcome_lift.
  by destruct (Py.iter dep_idents ≫= mapM name_from_ident).
Qed.

(** C9. A module identifier resolves to its Swift name when it has one and
    to its Clang name only when it has none; the loop over the modules uses
    that name both to match a pair against the framework being scanned and
    to name the direct dependencies of a matching pair. *)
Theorem swift_name_first (framework : string) (ident : gmap string value)
    (meta : value) (deps : list value) :
  (∀ name, ident !! "swift" = Some name →
     name_from_ident (VDict ident) = Ok name) ∧
  (ident !! "swift" = None →
     name_from_ident (VDict ident) = Ok (default VNone (ident !! "clang"))) ∧
  (Py.eq_str (spec_name ident) framework = false →
     outcome (scan_pair framework (VList [VDict ident; meta]) deps 0) = Ok deps) ∧
  (∀ dep_idents : list (gmap string value),
     Py.eq_str (spec_name ident) framework = true →
     Py.getitem meta "directDependencies" = Ok (VList (VDict <$> dep_idents)) →
     outcome (scan_pair framework (VList [VDict ident; meta]) deps 0)
       = Ok (deps ++ (spec_name <$> dep_idents))).
Proof.
  split_and!.
  - intros name Hswift. rewrite name_from_ident_dict. unfold spec_name.
    by rewrite Hswift.
  - intros Hswift. rewrite name_from_ident_dict. unfold spec_name.
    by rewrite Hswift.
  - intros Hne. rewrite (scan_pair_outcome _ _ _ _ (VDict ident) meta) by done.
    by rewrite name_from_ident_dict, bind_Ok, Hne.
  - intros dep_idents Heq Hmeta.
    rewrite (scan_pair_outcome _ _ _ _ (VDict ident) meta) by done.
    rewrite name_from_ident_dict, bind_Ok, Heq. unfold direct_dependencies.
    rewrite Hmeta, bind_Ok. cbn [Py.iter].
    by rewrite bind_Ok, mapM_name_from_ident.
Qed.

Lemma swift_name_first_witness :
  name_from_ident (VDict {[ "swift" := VStr "Foo"; "clang" := VStr "CFoo" ]})
    = Ok (VStr "Foo") ∧
  name_from_ident (VDict {[ "clang" := VStr "CFoo" ]}) = Ok (VStr "CFoo") ∧
  outcome (scan_pair "CFoo"
             (VList [ VDict {[ "swift" := VStr "Foo"; "clang" := VStr "CFoo" ]};
                      VDict ∅ ]) [] 0) = Ok [] ∧
  outcome (scan_pair "Foo"
             (VList [ VDict {[ "swift" := VStr "Foo"; "clang" := VStr "CFoo" ]};
                      VDict {[ "directDependencies" :=
                        VList (VDict <$> [ {[ "swift" := VStr "Bar";
                                              "clang" := VStr "CBar" ]} ]) ]} ])
             [] 0) = Ok [VStr "Bar"].
Proof.
  split_and!.
  - apply (proj1 (swift_name_first "Foo"
             {[ "swift" := VStr "Foo"; "clang" := VStr "CFoo" ]} VNone [])).
    reflexivity.
  - etrans.
    + apply (proj1 (proj2 (swift_name_first "Foo"
               {[ "clang" := VStr "CFoo" ]} VNone []))).
      reflexivity.
    + reflexivity.
  - apply (proj1 (proj2 (proj2 (swift_name_first "CFoo"
             {[ "swift" := VStr "Foo"; "clang" := VStr "CFoo" ]}
             (VDict ∅) [])))).
    reflexivity.
  - etrans.
    + apply (proj2 (proj2 (proj2 (swift_name_first "Foo"
               {[ "swift" := VStr "Foo"; "clang" := VStr "CFoo" ]}
               (VDict {[ "directDependencies" :=
                  VList (VDict <$> [ {[ "swift" := VStr "Bar";
                                        "clang" := VStr "CBar" ]} ]) ]}) [])))
               [ {[ "swift" := VStr "Bar"; "clang" := VStr "CBar" ]} ]);
        reflexivity.
    + reflexivity.
Defined.

(** ** The modules list *)

Lemma length_flat pairs : length (flat pairs) = 2 * length pairs.
Proof. induction pairs as [|[ident meta] pairs IH]; cbn; [done|]. lia. Qed.

Lemma flat_app pre post : flat (pre ++ post) = flat pre ++ flat post.
Proof. induction pre as [|[ident meta] pre IH]; cbn; [done|]. by rewrite IH. Qed.

Lemma flat_lookup pairs k pair :
  pairs !! k = Some pair →
  flat pairs !! (2 * k) = Some pair.1 ∧ flat pairs !! (2 * k + 1) = Some pair.2.
Proof.
  revert k. induction pairs as [|[ident meta] pairs IH]; intros k; [done|].
  destruct k as [|k]; cbn.
  - by intros [= <-].
  - intros Hk%IH. replace (k + S (k + 0)) with (S (2 * k)) by lia.
    cbn. replace (k + (k + 0) + 1) with (2 * k + 1) by lia. exact Hk.
Qed.

Lemma range_even (n : nat) : Py.range 0 (2 * n) 2 = (λ k, 2 * k) <$> seq 0 n.
Proof.
  unfold Py.range.
  replace ((2 * n - 0 + 2 - 1) `div` 2) with n.
  - apply list_fmap_ext. intros _ k _. lia.
  - apply Nat.div_unique with 1; lia.
Qed.

Lemma scan_pairs_segment framework pre mid post contribs acc :
  Forall2 (contribution framework) mid contribs →
  outcome (for_each ((λ k, 2 * k) <$> seq (length pre) (length mid)) acc
             (scan_pair framework (VList (flat (pre ++ mid ++ post)))))
  = Ok (acc ++ concat contribs).
Proof.
  intros Hall. revert pre acc.
  induction Hall as [|[ident meta] names mid contribs Hpair _ IH];
    intros pre acc.
  { cbn. by rewrite app_nil_r. }
  cbn [length seq fmap list_fmap for_each].
  rewrite outcome_bind.
  rewrite (scan_pair_outcome _ _ _ _ ident meta).
  2:{ rewrite flat_app, drop_app_length'; [done|]. by rewrite length_flat. }
  destruct Hpair as (name & Hname & Hcontrib). cbn in Hname, Hcontrib.
  rewrite Hname, bind_Ok.
  specialize (IH (pre ++ [(ident, meta)])).
  rewrite length_app, <- (assoc_L (++)) in IH. cbn in IH.
  replace (length pre + 1) with (S (length pre)) in IH by lia.
  destruct (Py.eq_str name framework).
  - rewrite Hcontrib, !bind_Ok, IH. cbn. by rewrite (assoc_L (++)).
  - subst names. by rewrite bind_Ok, IH.
Qed.

Lemma scan_pairs_loop framework pairs contribs :
  Forall2 (contribution framework) pairs contribs →
  outcome (for_each (Py.range 0 (length (flat pairs)) 2) []
             (scan_pair framework (VList (flat pairs))))
  = Ok (concat contribs).
Proof.
  intros Hall. rewrite length_flat, range_even.
  pose proof (scan_pairs_segment framework [] pairs [] contribs [] Hall) as Hloop.
  change (length (@nil (value * value))) with 0 in Hloop.
  change ([] ++ pairs ++ []) with (pairs ++ []) in Hloop.
  by rewrite app_nil_r in Hloop.
Qed.

Lemma outcome_for_each_app {A B} (l k : list A) (acc : B) (body : B → A → M B) :
  outcome (for_each (l ++ k) acc body)
  = outcome (for_each l acc body) ≫= (λ acc, outcome (for_each k acc body)).
Proof.
  revert acc. induction l as [|x l IH]; intros acc; [done|].
  cbn [app for_each]. rewrite !outcome_bind.
  destruct (outcome (body acc x)) as [acc'|e]; [|done].
  by rewrite !bind_Ok, IH.
Qed.

(** A matching pair without direct dependencies ends the loop. *)
Lemma scan_pairs_raise framework pre ident meta post contribs name e :
  Forall2 (contribution framework) pre contribs →
  name_from_ident ident = Ok name →
  Py.eq_str name framework = true →
  direct_dependencies meta = Raise e →
  outcome (for_each
             (Py.range 0 (length (flat (pre ++ (ident, meta) :: post))) 2) []
             (scan_pair framework (VList (flat (pre ++ (ident, meta) :: post)))))
  = Raise e.
Proof.
  intros Hpre Hname Hmatch Hmeta.
  rewrite length_flat, range_even, length_app, seq_app, fmap_app.
  rewrite outcome_for_each_app.
  pose proof (scan_pairs_segment framework [] pre ((ident, meta) :: post)
                contribs [] Hpre) as Hloop.
  change (length (@nil (value * value))) with 0 in Hloop.
  change ([] ++ pre ++ (ident, meta) :: post)
    with (pre ++ (ident, meta) :: post) in Hloop.
  rewrite Hloop, bind_Ok. clear Hloop.
  cbn [length seq fmap list_fmap for_each app].
  rewrite outcome_bind.
  rewrite (scan_pair_outcome _ _ _ _ ident meta).
  2:{ rewrite flat_app, Nat.add_0_l, drop_app_length'; [done|].
      by rewrite length_flat. }
  by rewrite Hname, bind_Ok, Hmatch, Hmeta.
Qed.

(** C6. The modules array is read as consecutive pairs, identifier at index
    [2k] and metadata at index [2k + 1]; every pair whose identifier resolves
    to the framework's name adds the names of its metadata's direct
    dependencies, in order, and the loop goes on after a match: several
    matching pairs all contribute. *)
Theorem every_matching_pair_contributes (json_loads : string → option value)
    (framework response : string) (data : value)
    (pairs : list (value * value)) (contribs : list (list value)) :
  response ≠ EmptyString →
  json_loads response = Some data →
  Py.getitem data "modules" = Ok (VList (flat pairs)) →
  Forall2 (contribution framework) pairs contribs →
  (∀ k pair, pairs !! k = Some pair →
     flat pairs !! (2 * k) = Some pair.1 ∧
     flat pairs !! (2 * k + 1) = Some pair.2) ∧
  outcome (parse_response json_loads framework response) = Ok (concat contribs).
Proof.
  intros Hne Hloads Hmodules Hall. split; [apply flat_lookup|].
  unfold parse_response. rewrite decide_True.
  2:{ by destruct response. }
  rewrite outcome_bind, outcome_lift, Hloads. cbn [from_option].
  rewrite bind_Ok, outcome_bind, outcome_lift, Hmodules, bind_Ok.
  rewrite outcome_bind, outcome_lift. cbn [Py.len].
  rewrite bind_Ok. by apply scan_pairs_loop.
Qed.

Lemma every_matching_pair_contributes_witness :
  outcome (parse_response Json.loads "Foo" Sample.foo_response)
  = Ok [VStr "Foo"; VStr "Bar"; VStr "Baz"; VStr "simd"; VStr "Bar"].
Proof.
  refine (proj2 (every_matching_pair_contributes Json.loads "Foo"
    Sample.foo_response
    (VDict {[ "modules" := VList (flat
      [ (VDict {[ "swift" := VStr "Foo" ]},
         VDict {[ "directDependencies" :=
           VList [ VDict {[ "clang" := VStr "Foo" ]};
                   VDict {[ "swift" := VStr "Bar" ]};
                   VDict {[ "clang" := VStr "Baz" ]} ] ]});
        (VDict {[ "clang" := VStr "Bar" ]},
         VDict {[ "directDependencies" :=
           VList [ VDict {[ "clang" := VStr "Zed" ]} ] ]});
        (VDict {[ "clang" := VStr "Foo" ]},
         VDict {[ "directDependencies" :=
           VList [ VDict {[ "clang" := VStr "simd" ]};
                   VDict {[ "clang" := VStr "Bar" ]} ] ]}) ]) ]})
    _
    [ [VStr "Foo"; VStr "Bar"; VStr "Baz"]; []; [VStr "simd"; VStr "Bar"] ]
    _ _ _ _)).
  - discriminate.
  - vm_compute. reflexivity.
  - reflexivity.
  - repeat constructor.
    + exists (VStr "Foo"). split; vm_compute; reflexivity.
    + exists (VStr "Bar"). split; vm_compute; reflexivity.
    + exists (VStr "Foo"). split; vm_compute; reflexivity.
Defined.

(** ** The shape of the output *)

Lemma name_width_max_list (frameworks : list string) :
  name_width frameworks = max_list (String.length <$> frameworks).
Proof.
  unfold name_width. induction frameworks as [|x l IH]; [done|].
  cbn. destruct (Py.max_by_len l) as [y|e]; [|lia].
  case_decide; lia.
Qed.

Lemma body_spec (width : nat) (names : list string)
    (depsets : list (gset string)) :
  body width names depsets
  = concat_lines (zip_with (spec_line width) names (rendered_deps <$> depsets)).
Proof.
  unfold body. f_equal. revert depsets.
  induction names as [|name names IH]; intros [|deps depsets]; cbn; [done..|].
  by rewrite attr_line_spec, IH.
Qed.

Section Output.

Variable json_loads : string → option value.

Lemma depsets_of_lines w sdk frameworks width names lines :
  Forall2 (λ framework line,
      outcome (scan_framework json_loads w sdk frameworks width framework)
      = Ok line) names lines →
  ∃ depsets,
    Forall2 (λ framework deps,
        framework_deps json_loads w sdk frameworks framework = Ok deps)
      names depsets.
Proof.
  induction 1 as [|fw line fws lines Hfw _ [depsets IH]]; [by exists []|].
  rewrite scan_framework_deps in Hfw.
  destruct (framework_deps _ _ _ _ _) as [deps|e] eqn:Hdeps; [|done].
  exists (deps :: depsets). by constructor.
Qed.

(** A scan that ends normally found the dependencies of every framework
    and wrote their lines between the header and the footer. *)
Lemma scan_sdk_normal w sdk :
  outcome (scan_sdk json_loads w sdk) = Ok () →
  ∃ entries depsets,
    os_listdir w (sdk +:+ "/System/Library/Frameworks") = Some entries ∧
    discover entries ≠ [] ∧
    Forall2 (λ framework deps,
        framework_deps json_loads w sdk (discover entries) framework = Ok deps)
      (discover entries) depsets ∧
    stdout_of (events (scan_sdk json_loads w sdk))
      = HEADER
        +:+ body (name_width (discover entries)) (discover entries) depsets
        +:+ FOOTER.
Proof.
  intros (entries & lines & Hls & Hne & Hlines)%scan_sdk_inv.
  apply depsets_of_lines in Hlines as [depsets Hdeps].
  exists entries, depsets. split_and!; [done..|].
  by apply scan_sdk_output.
Qed.

End Output.

(** C7. The output is the two-line header, one line for each discovered
    framework in sorted order, and the one-line footer.  The line of a
    framework is its name padded to the width, then the empty attribute set
    when it has no dependencies and the [inherit] of its dependencies
    otherwise; the width is the length of the longest framework name. *)
Theorem output_format (json_loads : string → option value) (w : World)
    (sdk : string) (entries : list string) (depsets : list (gset string)) :
  os_listdir w (sdk +:+ "/System/Library/Frameworks") = Some entries →
  discover entries ≠ [] →
  Forall2 (λ framework deps,
      framework_deps json_loads w sdk (discover entries) framework = Ok deps)
    (discover entries) depsets →
  let frameworks := discover entries in
  let width := max_list (String.length <$> frameworks) in
  outcome (scan_sdk json_loads w sdk) = Ok () ∧
  stdout_of (events (scan_sdk json_loads w sdk))
    = "{ libs, frameworks }: with libs; with frameworks;" +:+ NL
      +:+ "{" +:+ NL
      +:+ concat_lines
            (zip_with (spec_line width) frameworks (rendered_deps <$> depsets))
      +:+ "}" +:+ NL ∧
  length (zip_with (spec_line width) frameworks (rendered_deps <$> depsets))
    = length frameworks ∧
  Sorted String.le frameworks ∧
  Forall (λ framework,
      String.length
        (framework +:+ Str.replicate (width - String.length framework) " "%char)
      = width) frameworks.
Proof.
  intros Hls Hne Hdeps frameworks width.
  destruct (scan_sdk_output json_loads w sdk entries depsets Hls Hne Hdeps)
    as [Hok Hout].
  split_and!; [done| | |apply discover_sorted|].
  - rewrite Hout, body_spec. unfold width, frameworks.
    by rewrite name_width_max_list.
  - rewrite length_zip_with_l_eq; [done|].
    rewrite length_fmap. by apply Forall2_length in Hdeps.
  - apply Forall_forall. intros framework Hin.
    apply ljust_length. unfold width. rewrite <- name_width_max_list.
    by apply name_width_bound.
Qed.

Lemma output_format_witness :
  stdout_of (events (scan_sdk Json.loads Sample.scenario "/sdk"))
  = "{ libs, frameworks }: with libs; with frameworks;" +:+ NL
    +:+ "{" +:+ NL
    +:+ "  Bar = {};" +:+ NL
    +:+ "  Foo = { inherit Bar simd; };" +:+ NL
    +:+ "}" +:+ NL.
Proof.
  assert (discover ["Foo.framework"; "_Hidden.framework"; "Bar.framework"]
          = ["Bar"; "Foo"]) as Hnames by (vm_compute; reflexivity).
  destruct (output_format Json.loads Sample.scenario "/sdk"
              ["Foo.framework"; "_Hidden.framework"; "Bar.framework"]
              [∅; {[ "Bar"; "simd" ]}]) as (_ & Hout & _).
  - reflexivity.
  - rewrite Hnames. discriminate.
  - rewrite Hnames.
    constructor; [vm_compute; reflexivity|].
    constructor; [vm_compute; reflexivity|]. constructor.
  - rewrite Hout. vm_compute. reflexivity.
Defined.

(** ** The dependencies on a line *)

Lemma rendered_filter_deps frameworks framework raw :
  let deps := rendered_deps (filter_deps frameworks framework raw) in
  (∀ dep, dep ∈ deps → dep ∈ frameworks ∨ dep ∈ ALLOWED_LIBS) ∧
  (framework ∉ deps) ∧ NoDup deps ∧ Sorted String.le deps.
Proof.
  cbv zeta. split_and!.
  - intros dep Hin%elem_of_rendered_deps. apply elem_of_filter_deps in Hin.
    tauto.
  - intros Hin%elem_of_rendered_deps. apply elem_of_filter_deps in Hin. tauto.
  - apply rendered_deps_NoDup.
  - apply rendered_deps_sorted.
Qed.

Lemma framework_deps_filtered json_loads w sdk frameworks framework deps :
  framework_deps json_loads w sdk frameworks framework = Ok deps →
  ∃ raw, deps = filter_deps frameworks framework raw.
Proof.
  unfold framework_deps. destruct (subprocess_run _ _ _); [|done].
  destruct (outcome (parse_response _ _ _)) as [raw|e]; [|done].
  intros [= <-]. eauto.
Qed.

(** C3. On the line of every framework, the dependency names are among the
    discovered framework names and the allow-list, which holds [simd] only;
    the framework's own name is not one of them; they are without duplicates
    and in lexicographic order. *)
Theorem dependency_names (json_loads : string → option value) (w : World)
    (sdk : string) :
  outcome (scan_sdk json_loads w sdk) = Ok () →
  ∃ (entries : list string) (deps : list (list string)),
    os_listdir w (sdk +:+ "/System/Library/Frameworks") = Some entries ∧
    stdout_of (events (scan_sdk json_loads w sdk))
      = HEADER
        +:+ concat_lines
              (zip_with (spec_line (name_width (discover entries)))
                 (discover entries) deps)
        +:+ FOOTER ∧
    Forall2 (λ framework names,
        (∀ name, name ∈ names → name ∈ discover entries ∨ name = "simd") ∧
        (framework ∉ names) ∧ NoDup names ∧ Sorted String.le names)
      (discover entries) deps.
Proof.
  intros (entries & depsets & Hls & _ & Hdeps & Hout)%scan_sdk_normal.
  exists entries, (rendered_deps <$> depsets). split_and!; [done| |].
  - by rewrite Hout, body_spec.
  - apply Forall2_fmap_r. eapply Forall2_impl; [exact Hdeps|].
    intros framework deps (raw & ->)%framework_deps_filtered. cbv beta.
    destruct (rendered_filter_deps (discover entries) framework raw)
      as (Hsub & Hself & Hnodup & Hsorted).
    split_and!; [|done..].
    intros name [Hfw|Hlib%list_elem_of_singleton]%Hsub; auto.
Qed.

Lemma dependency_names_witness :
  ∃ (entries : list string) (deps : list (list string)),
    os_listdir Sample.scenario ("/sdk" +:+ "/System/Library/Frameworks")
      = Some entries ∧
    stdout_of (events (scan_sdk Json.loads Sample.scenario "/sdk"))
      = HEADER
        +:+ concat_lines
              (zip_with (spec_line (name_width (discover entries)))
                 (discover entries) deps)
        +:+ FOOTER ∧
    Forall2 (λ framework names,
        (∀ name, name ∈ names → name ∈ discover entries ∨ name = "simd") ∧
        (framework ∉ names) ∧ NoDup names ∧ Sorted String.le names)
      (discover entries) deps.
Proof.
  apply (dependency_names Json.loads Sample.scenario "/sdk").
  vm_compute. reflexivity.
Defined.

(** ** The framework names of the output *)

Lemma remove_dups_NoDup_id (l : list string) : NoDup l → remove_dups l = l.
Proof.
  induction 1 as [|x l Hnotin _ IH]; [done|].
  cbn. destruct (decide_rel elem_of x l); [done|]. by rewrite IH.
Qed.

Lemma elem_of_spec_framework_names (entries : list string) (name : string) :
  name ∈ spec_framework_names entries ↔ name ∈ discover entries.
Proof.
  unfold spec_framework_names.
  by rewrite sort_elem_of, elem_of_remove_dups, discover_perm.
Qed.

(** C2, counterexample.  A frameworks directory with the entries [Foo] and
    [Foo.framework] gives the name [Foo] twice, and the output has two lines
    for it where the claim has one. *)
Lemma one_line_per_name_fails :
  spec_framework_names ["Foo"; "Foo.framework"] = ["Foo"] ∧
  stdout_of (events (scan_sdk Json.loads Sample.twins "/sdk"))
    = HEADER +:+ "  Foo = {};" +:+ NL +:+ "  Foo = {};" +:+ NL +:+ FOOTER ∧
  ¬ one_line_per_name Json.loads.
Proof.
  split_and!; [vm_compute; reflexivity..|].
  intros Hclaim.
  destruct (Hclaim Sample.twins "/sdk" ["Foo"; "Foo.framework"])
    as (depsets & Hlen & Hout); [vm_compute; reflexivity..|].
  replace (spec_framework_names ["Foo"; "Foo.framework"]) with ["Foo"] in *
    by (vm_compute; reflexivity).
  destruct depsets as [|deps [|? ?]]; [done| |done].
  rewrite body_spec in Hout. cbn [fmap list_fmap zip_with] in Hout.
  assert (stdout_of (events (scan_sdk Json.loads Sample.twins "/sdk"))
          = HEADER +:+ "  Foo = {};" +:+ NL +:+ "  Foo = {};" +:+ NL +:+ FOOTER)
    as Hrun by (vm_compute; reflexivity).
  rewrite Hrun in Hout. clear Hrun Hclaim Hlen.
  apply (inj (String.app HEADER)) in Hout.
  destruct (rendered_deps deps) as [|dep others]; cbv in Hout; discriminate.
Qed.

(** C2, amended.  The body has one line for each entry of the frameworks
    directory that does not start with an underscore, under the entry's name
    without the [.framework] suffix, in lexicographic order; a name that two
    entries give has two lines.  The names of the lines are, as a set, the
    specification's framework names, and are exactly those names, in their
    order, when no two entries give the same name. *)
Theorem framework_names (json_loads : string → option value) (w : World)
    (sdk : string) (entries : list string) :
  os_listdir w (sdk +:+ "/System/Library/Frameworks") = Some entries →
  outcome (scan_sdk json_loads w sdk) = Ok () →
  let names := discover entries in
  (∃ depsets : list (gset string),
     length depsets = length names ∧
     stdout_of (events (scan_sdk json_loads w sdk))
       = HEADER +:+ body (name_width names) names depsets +:+ FOOTER) ∧
  Sorted String.le names ∧
  names ≡ₚ Str.removesuffix ".framework" <$>
             filter (λ entry, ¬ Str.startswith "_" entry) entries ∧
  (∀ name, name ∈ names ↔
     ∃ entry, entry ∈ entries ∧ Str.startswith "_" entry = false ∧
              name = Str.removesuffix ".framework" entry) ∧
  (∀ name, name ∈ names ↔ name ∈ spec_framework_names entries) ∧
  (NoDup names → names = spec_framework_names entries).
Proof.
  intros Hls (entries' & depsets & Hls' & _ & Hdeps & Hout)%scan_sdk_normal.
  assert (entries' = entries) as -> by congruence.
  cbv zeta. split_and!.
  - exists depsets. split; [|done]. symmetry. by apply Forall2_length in Hdeps.
  - apply discover_sorted.
  - apply discover_perm.
  - apply elem_of_discover.
  - intros name. by rewrite elem_of_spec_framework_names.
  - intros Hnodup. unfold spec_framework_names.
    rewrite remove_dups_NoDup_id; [done|]. by rewrite <- discover_perm.
Qed.

Lemma framework_names_witness :
  ∃ depsets : list (gset string),
    length depsets = 2 ∧
    stdout_of (events (scan_sdk Json.loads Sample.twins "/sdk"))
      = HEADER +:+ body 3 ["Foo"; "Foo"] depsets +:+ FOOTER.
Proof.
  apply (framework_names Json.loads Sample.twins "/sdk" ["Foo"; "Foo.framework"]).
  - reflexivity.
  - vm_compute. reflexivity.
Defined.

(** ** Scans that fail *)

Lemma malformed_raises json_loads framework response e :
  response ≠ EmptyString →
  malformed json_loads framework response e →
  outcome (parse_response json_loads framework response) = Raise e.
Proof.
  intros Hne Hbad. unfold parse_response. rewrite decide_True.
  2:{ by destruct response. }
  rewrite outcome_bind, outcome_lift.
  destruct Hbad as [Hloads|data e Hloads Hmodules
                   |data pre ident meta post contribs name e
                      Hloads Hmodules Hpre Hname Hmatch Hmeta];
    rewrite Hloads; cbn [from_option]; [done|..];
    rewrite bind_Ok, outcome_bind, outcome_lift, Hmodules; [done|].
  rewrite bind_Ok, outcome_bind, outcome_lift. cbn [Py.len]. rewrite bind_Ok.
  eapply scan_pairs_raise; [done..|].
  unfold direct_dependencies. by rewrite Hmeta.
Qed.

Lemma scan_sdk_raise json_loads w sdk entries framework e :
  os_listdir w (sdk +:+ "/System/Library/Frameworks") = Some entries →
  framework ∈ discover entries →
  outcome (scan_framework json_loads w sdk (discover entries)
             (name_width (discover entries)) framework) = Raise e →
  ∃ e', outcome (scan_sdk json_loads w sdk) = Raise e' ∧
        stdout_of (events (scan_sdk json_loads w sdk)) = EmptyString.
Proof.
  intros Hls Hin Hraise.
  destruct (outcome (scan_sdk json_loads w sdk)) as [[]|e'] eqn:Hscan.
  - apply scan_sdk_inv in Hscan as (entries' & lines & Hls' & _ & Hlines).
    assert (entries' = entries) as -> by congruence.
    apply list_elem_of_lookup in Hin as [i Hi].
    destruct (Forall2_lookup_l _ _ _ _ _ Hlines Hi) as (line & _ & Hline).
    congruence.
  - exists e'. split; [done|]. by eapply scan_sdk_raise_stdout.
Qed.

(** C1, counterexample.  A scan that exits with status 0 and prints bytes
    that are not JSON, a document without [modules], or a module of the
    framework without [directDependencies], ends the run with an exception,
    and nothing is written to standard output. *)
Lemma every_failure_recovers_fails :
  (outcome (scan_sdk Json.loads (Sample.single "oops") "/sdk")
     = Raise JSONDecodeError ∧
   stdout_of (events (scan_sdk Json.loads (Sample.single "oops") "/sdk")) = EmptyString) ∧
  (outcome (scan_sdk Json.loads (Sample.single "{}") "/sdk") = Raise KeyError ∧
   stdout_of (events (scan_sdk Json.loads (Sample.single "{}") "/sdk")) = EmptyString) ∧
  (outcome (scan_sdk Json.loads
              (Sample.single (Sample.json "{'modules': [{'swift': 'Foo'}, {}]}")) "/sdk")
     = Raise KeyError ∧
   stdout_of (events (scan_sdk Json.loads
              (Sample.single (Sample.json "{'modules': [{'swift': 'Foo'}, {}]}")) "/sdk"))
     = EmptyString) ∧
  ¬ every_failure_recovers Json.loads.
Proof.
  split_and!; [vm_compute; reflexivity..|].
  intros Hclaim.
  destruct (Hclaim (Sample.single "oops") "/sdk" ["Foo.framework"])
    as [Hok _].
  - reflexivity.
  - vm_compute. discriminate.
  - intros framework Hin.
    replace (discover ["Foo.framework"]) with ["Foo"] in Hin
      by (vm_compute; reflexivity).
    apply list_elem_of_singleton in Hin as ->. vm_compute. eauto.
  - vm_compute in Hok. discriminate.
Qed.

(** C1, amended.  A scan that exits with a status other than 0, or prints
    nothing, counts as no dependencies for its framework, and the run goes
    on: when every framework has a line, the output is complete.  A scan
    that exits with status 0 and prints bytes that are not JSON, or JSON
    without the expected [modules] or [directDependencies], raises an
    exception nothing catches: the run ends there and writes nothing to
    standard output. *)
Theorem scan_failures (json_loads : string → option value) (w : World)
    (sdk : string) (entries : list string) :
  os_listdir w (sdk +:+ "/System/Library/Frameworks") = Some entries →
  let frameworks := discover entries in
  let width := name_width frameworks in
  (∀ framework result,
     subprocess_run w (swiftc_args sdk) (Str.encode ("import " +:+ framework))
       = Some result →
     returncode result ≠ 0%Z ∨ stdout result = EmptyString →
     outcome (scan_framework json_loads w sdk frameworks width framework)
       = Ok (spec_line width framework [])) ∧
  (∀ lines,
     frameworks ≠ [] →
     Forall2 (λ framework line,
         outcome (scan_framework json_loads w sdk frameworks width framework)
         = Ok line) frameworks lines →
     outcome (scan_sdk json_loads w sdk) = Ok () ∧
     stdout_of (events (scan_sdk json_loads w sdk))
       = HEADER +:+ concat_lines lines +:+ FOOTER) ∧
  (∀ framework result e,
     framework ∈ frameworks →
     subprocess_run w (swiftc_args sdk) (Str.encode ("import " +:+ framework))
       = Some result →
     returncode result = 0%Z →
     stdout result ≠ EmptyString →
     malformed json_loads framework (stdout result) e →
     ∃ e', outcome (scan_sdk json_loads w sdk) = Raise e' ∧
           stdout_of (events (scan_sdk json_loads w sdk)) = EmptyString).
Proof.
  intros Hls frameworks width. split_and!.
  - intros framework result Hrun Hfail.
    apply (scan_framework_no_response _ _ _ _ _ _ result Hrun).
    unfold response_of. case_decide; [done|]. by destruct Hfail.
  - intros lines Hne Hlines. by apply (scan_sdk_complete _ _ _ entries).
  - intros framework result e Hin Hrun Hcode Hne Hbad.
    apply (scan_sdk_raise json_loads w sdk entries framework e Hls Hin).
    rewrite scan_framework_outcome, Hrun. unfold response_of.
    rewrite decide_False by (intros Hnz; by apply Hnz).
    by rewrite (malformed_raises _ _ _ e).
Qed.

Lemma scan_failures_witness :
  outcome (scan_framework Json.loads Sample.scenario "/sdk" ["Bar"; "Foo"] 3 "Bar")
    = Ok ("  Bar = {};" +:+ NL) ∧
  (∃ e', outcome (scan_sdk Json.loads (Sample.single "oops") "/sdk") = Raise e' ∧
         stdout_of (events (scan_sdk Json.loads (Sample.single "oops") "/sdk"))
         = EmptyString).
Proof.
  split.
  - apply (proj1 (scan_failures Json.loads Sample.scenario "/sdk"
                    ["Foo.framework"; "_Hidden.framework"; "Bar.framework"]
                    eq_refl)
             "Bar" (Completed 1 "<unknown>:0: error")).
    + reflexivity.
    + left. discriminate.
  - apply (proj2 (proj2 (scan_failures Json.loads (Sample.single "oops") "/sdk"
                           ["Foo.framework"] eq_refl))
             "Foo" (Completed 0 "oops") JSONDecodeError).
    + vm_compute. by left.
    + reflexivity.
    + reflexivity.
    + discriminate.
    + apply Unparseable. reflexivity.
Defined.

(** ** A scan that exits with another status than 0 *)

(** C5. The output of a scan that exits with a status other than 0 is not
    parsed: the line of its framework is the empty attribute set, whatever
    the scan printed.  The run goes on, and the line of every other
    framework is the one its own scan gives. *)
Theorem failed_scan (json_loads : string → option value) (w : World)
    (sdk : string) (entries : list string) (lines : list string) :
  os_listdir w (sdk +:+ "/System/Library/Frameworks") = Some entries →
  discover entries ≠ [] →
  let frameworks := discover entries in
  let width := name_width frameworks in
  Forall2 (λ framework line,
      ∃ result,
        subprocess_run w (swiftc_args sdk) (Str.encode ("import " +:+ framework))
          = Some result ∧
        if decide (returncode result ≠ 0%Z)
        then line = spec_line width framework []
        else ∃ raw,
          outcome (parse_response json_loads framework (stdout result)) = Ok raw ∧
          line = attr_line width framework (filter_deps frameworks framework raw))
    frameworks lines →
  outcome (scan_sdk json_loads w sdk) = Ok () ∧
  stdout_of (events (scan_sdk json_loads w sdk))
    = HEADER +:+ concat_lines lines +:+ FOOTER.
Proof.
  intros Hls Hne frameworks width Hlines.
  apply (scan_sdk_complete _ _ _ entries); [done..|].
  eapply Forall2_impl; [exact Hlines|].
  intros framework line (result & Hrun & Hline). cbv beta.
  rewrite scan_framework_outcome, Hrun. unfold response_of.
  destruct (decide (returncode result ≠ 0%Z)) as [Hfail|Hzero].
  - subst line. rewrite parse_response_empty. cbn. by rewrite filter_deps_nil.
  - destruct Hline as (raw & -> & ->). done.
Qed.

Lemma failed_scan_witness :
  outcome (scan_sdk Json.loads Sample.scenario "/sdk") = Ok () ∧
  stdout_of (events (scan_sdk Json.loads Sample.scenario "/sdk"))
    = HEADER
      +:+ concat_lines [ "  Bar = {};" +:+ NL;
                         "  Foo = { inherit Bar simd; };" +:+ NL ]
      +:+ FOOTER.
Proof.
  apply (failed_scan Json.loads Sample.scenario "/sdk"
           ["Foo.framework"; "_Hidden.framework"; "Bar.framework"]).
  - reflexivity.
  - vm_compute. discriminate.
  - change (discover ["Foo.framework"; "_Hidden.framework"; "Bar.framework"])
      with ["Bar"; "Foo"].
    constructor; [|constructor; [|constructor]].
    + exists (Completed 1 "<unknown>:0: error"). split; reflexivity.
    + exists (Completed 0 Sample.foo_response). split; [reflexivity|].
      exists [VStr "Foo"; VStr "Bar"; VStr "Baz"; VStr "simd"; VStr "Bar"].
      split; vm_compute; reflexivity.
Defined.

(** ** Determinism *)

Lemma for_each_lines_ext (g1 g2 : string → M string) frameworks acc :
  (∀ framework, framework ∈ frameworks →
     outcome (g1 framework) = outcome (g2 framework)) →
  outcome (for_each frameworks acc
             (λ output framework, line ← g1 framework; mret (output +:+ line)))
  = outcome (for_each frameworks acc
               (λ output framework, line ← g2 framework; mret (output +:+ line))).
Proof.
  revert acc. induction frameworks as [|fw fws IH]; intros acc Hext; [done|].
  cbn [for_each]. rewrite !outcome_bind, (Hext fw) by left.
  destruct (outcome (g2 fw)) as [line|e]; [|done].
  rewrite !bind_Ok. cbn. apply IH. intros framework Hin. apply Hext. by right.
Qed.

Lemma scan_sdk_outcome json_loads w sdk :
  outcome (scan_sdk json_loads w sdk) =
    match os_listdir w (sdk +:+ "/System/Library/Frameworks") with
    | None => Raise OSError
    | Some entries =>
        match Py.max_by_len (discover entries) with
        | Raise e => Raise e
        | Ok _ =>
            match outcome (for_each (discover entries) HEADER
                    (λ output framework,
                       line ← scan_framework json_loads w sdk (discover entries)
                                (name_width (discover entries)) framework;
                       mret (output +:+ line))) with
            | Ok _ => Ok ()
            | Raise e => Raise e
            end
        end
    end.
Proof.
  unfold scan_sdk. rewrite outcome_bind, outcome_lift.
  destruct (os_listdir w _) as [entries|]; cbn [from_option];
    [rewrite bind_Ok|done]. cbv beta zeta.
  rewrite outcome_bind, outcome_lift. unfold name_width.
  destruct (Py.max_by_len (discover entries)) as [longest|e];
    [rewrite bind_Ok|done].
  rewrite outcome_bind. by destruct (outcome (for_each _ _ _)).
Qed.

(** C8. Two runs that are given the same listing of the frameworks directory
    (in any order) and the same answer of the compiler, exit status and
    output, for every framework, write the same text to standard output, and
    end the same way. *)
Theorem deterministic (json_loads : string → option value) (w1 w2 : World)
    (sdk1 sdk2 : string) (entries1 entries2 : list string) :
  os_listdir w1 (sdk1 +:+ "/System/Library/Frameworks") = Some entries1 →
  os_listdir w2 (sdk2 +:+ "/System/Library/Frameworks") = Some entries2 →
  entries1 ≡ₚ entries2 →
  (∀ framework, framework ∈ discover entries1 →
     subprocess_run w1 (swiftc_args sdk1) (Str.encode ("import " +:+ framework))
     = subprocess_run w2 (swiftc_args sdk2) (Str.encode ("import " +:+ framework))) →
  stdout_of (events (scan_sdk json_loads w1 sdk1))
    = stdout_of (events (scan_sdk json_loads w2 sdk2)) ∧
  outcome (scan_sdk json_loads w1 sdk1) = outcome (scan_sdk json_loads w2 sdk2).
Proof.
  intros Hls1 Hls2 Hperm%discover_permutation Hrun.
  assert (∀ framework, framework ∈ discover entries1 →
    outcome (scan_framework json_loads w1 sdk1 (discover entries1)
               (name_width (discover entries1)) framework)
    = outcome (scan_framework json_loads w2 sdk2 (discover entries1)
                 (name_width (discover entries1)) framework)) as Hsame.
  { intros framework Hin. by rewrite !scan_framework_outcome, (Hrun _ Hin). }
  assert (outcome (scan_sdk json_loads w1 sdk1)
          = outcome (scan_sdk json_loads w2 sdk2)) as Hout.
  { rewrite !scan_sdk_outcome, Hls1, Hls2, <- Hperm.
    destruct (Py.max_by_len (discover entries1)); [|done].
    by rewrite (for_each_lines_ext _ _ _ _ Hsame). }
  split; [|done].
  destruct (outcome (scan_sdk json_loads w1 sdk1)) as [[]|e] eqn:Hscan.
  - destruct (scan_sdk_inv _ _ _ Hscan) as (entries & lines & Hls & Hne & Hlines).
    assert (entries = entries1) as -> by congruence.
    destruct (scan_sdk_complete json_loads w1 sdk1 entries1 lines) as [_ ->];
      [done..|].
    destruct (scan_sdk_complete json_loads w2 sdk2 entries2 lines) as [_ ->];
      [done|by rewrite <- Hperm| |done].
    rewrite <- Hperm. apply Forall2_same_length_lookup.
    split; [by apply Forall2_length in Hlines|].
    intros i framework line Hi Hline.
    rewrite <- Hsame by (by eapply list_elem_of_lookup_2).
    by apply (Forall2_lookup_lr _ _ _ i _ _ Hlines).
  - rewrite (scan_sdk_raise_stdout _ _ _ e Hscan).
    symmetry. by apply (scan_sdk_raise_stdout _ _ _ e).
Qed.

Lemma deterministic_witness :
  stdout_of (events (scan_sdk Json.loads Sample.scenario "/sdk"))
  = stdout_of (events (scan_sdk Json.loads
      (Sample.world "/Volumes/MacOSX.sdk"
         ["Bar.framework"; "Foo.framework"; "_Hidden.framework"]
         [ ("Zed", Completed 0 EmptyString);
           ("Bar", Completed 1 "<unknown>:0: error");
           ("Foo", Completed 0 Sample.foo_response) ])
      "/Volumes/MacOSX.sdk")).
Proof.
  apply (deterministic Json.loads Sample.scenario _ "/sdk" "/Volumes/MacOSX.sdk"
           ["Foo.framework"; "_Hidden.framework"; "Bar.framework"]
           ["Bar.framework"; "Foo.framework"; "_Hidden.framework"]).
  - reflexivity.
  - reflexivity.
  - etrans; [apply perm_skip, Permutation_swap|].
    apply Permutation_swap.
  - assert (discover ["Foo.framework"; "_Hidden.framework"; "Bar.framework"]
            = ["Bar"; "Foo"]) as -> by (vm_compute; reflexivity).
    intros framework Hin.
    apply elem_of_cons in Hin as [->|Hin]; [vm_compute; reflexivity|].
    apply list_elem_of_singleton in Hin as ->. vm_compute. reflexivity.
Defined.


(** * Further properties of the script *)

(** ** Names of bundles and of hidden entries *)

Lemma rev_app_spec (s acc : string) :
  String.rev_app s acc = String.rev s +:+ acc.
Proof.
  revert acc. induction s as [|c s IH]; intros acc; [done|].
  unfold String.rev. cbn [String.rev_app].
  by rewrite !IH, app_assoc_str.
Qed.

Lemma rev_app_str (s t : string) :
  String.rev (s +:+ t) = String.rev t +:+ String.rev s.
Proof.
  induction s as [|c s IH].
  - by rewrite app_empty_r.
  - rewrite app_cons_str. unfold String.rev at 1 3. cbn [String.rev_app].
    by rewrite !rev_app_spec, IH, app_assoc_str.
Qed.

Lemma startswith_app (prefix s : string) :
  Str.startswith prefix (prefix +:+ s) = true.
Proof.
  induction prefix as [|c prefix IH]; [done|].
  rewrite app_cons_str. cbn. by rewrite decide_True.
Qed.

Lemma take_app_length (s t : string) : Str.take (String.length s) (s +:+ t) = s.
Proof.
  induction s as [|c s IH]; [by destruct t|].
  rewrite app_cons_str. cbn. by rewrite IH.
Qed.

(** Stripping a suffix undoes appending it. *)
Lemma removesuffix_app (suffix s : string) :
  Str.removesuffix suffix (s +:+ suffix) = s.
Proof.
  unfold Str.removesuffix, Str.endswith.
  rewrite rev_app_str, startswith_app, length_app_str.
  replace (String.length s + String.length suffix - String.length suffix)
    with (String.length s) by lia.
  apply take_app_length.
Qed.

Lemma startswith_underscore_take (n : nat) (s : string) :
  Str.startswith "_" s = false → Str.startswith "_" (Str.take n s) = false.
Proof.
  destruct s as [|c s]; [by destruct n|].
  destruct n as [|n]; [done|]. cbn. by case_decide.
Qed.

Lemma startswith_underscore_removesuffix (suffix s : string) :
  Str.startswith "_" s = false →
  Str.startswith "_" (Str.removesuffix suffix s) = false.
Proof.
  intros Hs. unfold Str.removesuffix.
  destruct (Str.endswith suffix s); [|done].
  by apply startswith_underscore_take.
Qed.

(** X1. A bundle [Name.framework] of the frameworks directory is scanned
    under the name [Name], and an entry without that suffix under its own
    name, unless the entry starts with an underscore. *)
Theorem bundle_names (entries : list string) (name : string) :
  Str.startswith "_" name = false →
  (name +:+ ".framework" ∈ entries → name ∈ discover entries) ∧
  (name ∈ entries → Str.endswith ".framework" name = false →
   name ∈ discover entries).
Proof.
  intros Hname. split.
  - intros Hin. apply elem_of_discover. exists (name +:+ ".framework").
    split_and!; [done| |by rewrite removesuffix_app].
    destruct name as [|c name]; [done|].
    rewrite app_cons_str. exact Hname.
  - intros Hin Hsuffix. apply elem_of_discover. exists name.
    split_and!; [done..|]. unfold Str.removesuffix. by rewrite Hsuffix.
Qed.

Lemma bundle_names_witness :
  "Foo" ∈ discover ["_Hidden.framework"; "Foo.framework"] ∧
  "Bar" ∈ discover ["Bar"; "Foo.framework"].
Proof.
  split.
  - apply (proj1 (bundle_names ["_Hidden.framework"; "Foo.framework"] "Foo"
                    eq_refl)).
    right. left.
  - apply (proj2 (bundle_names ["Bar"; "Foo.framework"] "Bar" eq_refl)).
    + left.
    + reflexivity.
Defined.

(** X2. No framework the script scans has a name that starts with an
    underscore: a hidden entry of the directory never gets a line. *)
Theorem no_hidden_names (entries : list string) (name : string) :
  name ∈ discover entries → Str.startswith "_" name = false.
Proof.
  intros (entry & _ & Hentry & ->)%elem_of_discover.
  by apply startswith_underscore_removesuffix.
Qed.

Lemma no_hidden_names_witness :
  "Foo" ∈ discover ["_Hidden.framework"; "Foo.framework"] ∧
  Str.startswith "_" "Foo" = false.
Proof.
  assert ("Foo" ∈ discover ["_Hidden.framework"; "Foo.framework"]) as Hin.
  { apply elem_of_discover. exists "Foo.framework".
    split_and!; [by right; left|reflexivity..]. }
  split; [exact Hin|].
  exact (no_hidden_names ["_Hidden.framework"; "Foo.framework"] "Foo" Hin).
Defined.

(** ** The trace of a run *)

Lemma events_bind {A B} (m : M A) (f : A → M B) :
  events (m ≫= f) =
    events m ++ match outcome m with
                | Ok a => events (f a)
                | Raise _ => []
                end.
Proof.
  unfold mbind, M_bind. destruct (outcome m); cbn; [done|].
  by rewrite app_nil_r.
Qed.

Lemma stderr_of_app (evs1 evs2 : list event) :
  stderr_of (evs1 ++ evs2) = stderr_of evs1 ++ stderr_of evs2.
Proof.
  induction evs1 as [|[text|line|ident deps] evs1 IH]; cbn; [done..| |];
    by rewrite ?IH.
Qed.

Lemma quiet_bind {A B} (m : M A) (f : A → M B) :
  quiet m → (∀ a, quiet (f a)) → quiet (m ≫= f).
Proof.
  unfold quiet. intros Hm Hf. rewrite events_bind, stderr_of_app, Hm.
  destruct (outcome m); [by rewrite Hf|done].
Qed.

Lemma quiet_for_each {A B} (l : list A) (acc : B) (body : B → A → M B) :
  (∀ acc x, quiet (body acc x)) → quiet (for_each l acc body).
Proof.
  intros Hbody. revert acc.
  induction l as [|x l IH]; intros acc; cbn; [done|].
  by apply quiet_bind.
Qed.

Lemma quiet_scan_pair framework modules deps i :
  quiet (scan_pair framework modules deps i).
Proof.
  unfold scan_pair.
  apply quiet_bind; [done|]. intros [ident meta].
  apply quiet_bind; [done|]. intros name.
  destruct (Py.eq_str name framework); [|done].
  repeat (apply quiet_bind; [done|]; intros ?). done.
Qed.

Lemma quiet_parse_response json_loads framework response :
  quiet (parse_response json_loads framework response).
Proof.
  unfold parse_response. case_decide; [|done].
  repeat (apply quiet_bind; [done|]; intros ?).
  apply quiet_for_each. intros. apply quiet_scan_pair.
Qed.

(** The events of a scan: the line that announces it, then lines of standard
    error only. *)
Lemma scan_framework_events json_loads w sdk frameworks width framework :
  ∃ rest,
    events (scan_framework json_loads w sdk frameworks width framework)
      = Stderr ("# scanning " +:+ framework) :: rest ∧
    stderr_of rest = rest.
Proof.
  unfold scan_framework. rewrite events_bind. cbn [eprint events outcome app].
  eexists. split; [done|].
  apply (quiet_bind (lift _)); [done|]. intros result.
  apply quiet_bind.
  { case_decide; [|done]. by apply quiet_bind. }
  intros response. apply quiet_bind; [apply quiet_parse_response|done].
Qed.

Lemma for_each_lines_events (g : string → M string) frameworks lines acc :
  Forall2 (λ framework line, outcome (g framework) = Ok line) frameworks lines →
  events (for_each frameworks acc
            (λ output framework, line ← g framework; mret (output +:+ line)))
  = concat ((λ framework, events (g framework)) <$> frameworks).
Proof.
  intros Hall. revert acc.
  induction Hall as [|fw line fws lines Hfw _ IH]; intros acc; [done|].
  cbn [for_each fmap list_fmap concat].
  rewrite events_bind, outcome_bind, events_bind, Hfw, bind_Ok.
  cbn [mret M_ret events outcome]. by rewrite app_nil_r, IH.
Qed.

Lemma for_each_lines_stop (g : string → M string) pre framework post acc e :
  Forall (λ framework, ∃ line, outcome (g framework) = Ok line) pre →
  outcome (g framework) = Raise e →
  outcome (for_each (pre ++ framework :: post) acc
             (λ output framework, line ← g framework; mret (output +:+ line)))
    = Raise e ∧
  events (for_each (pre ++ framework :: post) acc
            (λ output framework, line ← g framework; mret (output +:+ line)))
    = concat ((λ framework, events (g framework)) <$> pre ++ [framework]).
Proof.
  intros Hpre Hraise. revert acc.
  induction Hpre as [|fw pre [line Hfw] _ IH]; intros acc.
  - cbn [app for_each fmap list_fmap concat].
    rewrite outcome_bind, events_bind, !outcome_bind, events_bind, Hraise.
    by rewrite !app_nil_r.
  - destruct (IH (acc +:+ line)) as [IHout IHev].
    cbn [app for_each fmap list_fmap concat].
    rewrite outcome_bind, events_bind, !outcome_bind, events_bind, Hfw, !bind_Ok.
    change (outcome (mret (acc +:+ line))) with (Ok (acc +:+ line)).
    change (events (mret (acc +:+ line))) with (@nil event).
    by rewrite bind_Ok, app_nil_r, IHout, IHev.
Qed.

Lemma scan_events_stderr json_loads w sdk frameworks width scanned :
  stderr_of (scan_events json_loads w sdk frameworks width scanned)
  = scan_events json_loads w sdk frameworks width scanned.
Proof.
  unfold scan_events. induction scanned as [|fw fws IH]; [done|].
  cbn [fmap list_fmap concat]. rewrite stderr_of_app, IH. f_equal.
  destruct (scan_framework_events json_loads w sdk frameworks width fw)
    as (rest & -> & Hrest).
  cbn. by rewrite Hrest.
Qed.

(** X3. A run that ends normally writes to standard output once, at the very
    end; before that its events are those of the scans of the frameworks, in
    sorted order, and the scan of a framework starts with the line
    [# scanning <name>] and writes to standard error only. *)
Theorem complete_run_trace (json_loads : string → option value) (w : World)
    (sdk : string) (entries lines : list string) :
  os_listdir w (sdk +:+ "/System/Library/Frameworks") = Some entries →
  discover entries ≠ [] →
  let frameworks := discover entries in
  let width := name_width frameworks in
  Forall2 (λ framework line,
      outcome (scan_framework json_loads w sdk frameworks width framework)
      = Ok line) frameworks lines →
  events (scan_sdk json_loads w sdk)
    = scan_events json_loads w sdk frameworks width frameworks
      ++ [Stdout (HEADER +:+ concat_lines lines +:+ FOOTER)] ∧
  stderr_of (scan_events json_loads w sdk frameworks width frameworks)
    = scan_events json_loads w sdk frameworks width frameworks ∧
  Forall (λ framework, ∃ rest,
      events (scan_framework json_loads w sdk frameworks width framework)
      = Stderr ("# scanning " +:+ framework) :: rest) frameworks.
Proof.
  intros Hls Hne frameworks width Hlines. subst frameworks width. split_and!.
  - unfold scan_sdk. rewrite events_bind, outcome_lift, Hls. cbn [from_option].
    cbv beta iota zeta. cbn [lift events app].
    destruct (max_by_len_ok _ Hne) as (longest & Hmax & _).
    assert (String.length longest = name_width (discover entries)) as Hw.
    { unfold name_width. by rewrite Hmax. }
    rewrite events_bind, outcome_lift, Hmax. cbn [lift events app].
    rewrite Hw, events_bind.
    rewrite (for_each_lines_ok _ _ _ _ Hlines).
    rewrite (for_each_lines_events _ _ _ _ Hlines).
    cbn [stdout_write events]. by rewrite app_assoc_str.
  - apply scan_events_stderr.
  - apply Forall_forall. intros framework _.
    destruct (scan_framework_events json_loads w sdk (discover entries)
                (name_width (discover entries)) framework) as (rest & Hev & _).
    eauto.
Qed.

Lemma complete_run_trace_witness :
  events (scan_sdk Json.loads Sample.scenario "/sdk")
  = scan_events Json.loads Sample.scenario "/sdk" ["Bar"; "Foo"] 3 ["Bar"; "Foo"]
    ++ [Stdout (HEADER
                +:+ concat_lines [ "  Bar = {};" +:+ NL;
                                   "  Foo = { inherit Bar simd; };" +:+ NL ]
                +:+ FOOTER)].
Proof.
  assert (discover ["Foo.framework"; "_Hidden.framework"; "Bar.framework"]
          = ["Bar"; "Foo"]) as Hnames by (vm_compute; reflexivity).
  pose proof (complete_run_trace Json.loads Sample.scenario "/sdk"
                ["Foo.framework"; "_Hidden.framework"; "Bar.framework"]
                [ "  Bar = {};" +:+ NL; "  Foo = { inherit Bar simd; };" +:+ NL ]
                eq_refl) as Htrace.
  cbv zeta in Htrace. rewrite Hnames in Htrace.
  change (name_width ["Bar"; "Foo"]) with 3 in Htrace.
  apply Htrace; [discriminate|].
  constructor; [vm_compute; reflexivity|].
  constructor; [vm_compute; reflexivity|]. constructor.
Defined.

(** X4. The run ends with the exception of the first framework, in sorted
    order, whose scan raises one: the frameworks after it are not scanned,
    and nothing is written to standard output. *)
Theorem first_failure_ends_run (json_loads : string → option value) (w : World)
    (sdk : string) (entries pre post : list string) (framework : string)
    (e : exn) :
  os_listdir w (sdk +:+ "/System/Library/Frameworks") = Some entries →
  discover entries = pre ++ framework :: post →
  let frameworks := discover entries in
  let width := name_width frameworks in
  Forall (λ framework, ∃ line,
      outcome (scan_framework json_loads w sdk frameworks width framework)
      = Ok line) pre →
  outcome (scan_framework json_loads w sdk frameworks width framework)
    = Raise e →
  outcome (scan_sdk json_loads w sdk) = Raise e ∧
  events (scan_sdk json_loads w sdk)
    = scan_events json_loads w sdk frameworks width (pre ++ [framework]) ∧
  stdout_of (events (scan_sdk json_loads w sdk)) = EmptyString.
Proof.
  intros Hls Hsplit frameworks width Hpre Hraise. subst frameworks width.
  assert (discover entries ≠ []) as Hne.
  { rewrite Hsplit. by destruct pre. }
  destruct (max_by_len_ok _ Hne) as (longest & Hmax & _).
  assert (String.length longest = name_width (discover entries)) as Hw.
  { unfold name_width. by rewrite Hmax. }
  destruct (for_each_lines_stop _ pre framework post HEADER e Hpre Hraise)
    as [Hout Hev].
  rewrite <- Hsplit in Hout, Hev.
  assert (outcome (scan_sdk json_loads w sdk) = Raise e) as Hscan.
  { rewrite scan_sdk_outcome, Hls, Hmax. by rewrite Hout. }
  split_and!; [done| |by apply (scan_sdk_raise_stdout _ _ _ e)].
  unfold scan_sdk. rewrite events_bind, outcome_lift, Hls. cbn [from_option].
  cbv beta iota zeta. cbn [lift events app].
  rewrite events_bind, outcome_lift, Hmax. cbn [lift events app].
  rewrite Hw, events_bind, Hout, Hev. by rewrite app_nil_r.
Qed.

Lemma first_failure_ends_run_witness :
  outcome (scan_sdk Json.loads
             (Sample.world "/sdk" ["Foo.framework"; "Bar.framework"; "Zed.framework"]
                [ ("Bar", Completed 1 EmptyString);
                  ("Foo", Completed 0 "oops");
                  ("Zed", Completed 0 EmptyString) ]) "/sdk")
    = Raise JSONDecodeError ∧
  events (scan_sdk Json.loads
            (Sample.world "/sdk" ["Foo.framework"; "Bar.framework"; "Zed.framework"]
               [ ("Bar", Completed 1 EmptyString);
                 ("Foo", Completed 0 "oops");
                 ("Zed", Completed 0 EmptyString) ]) "/sdk")
    = [ Stderr "# scanning Bar"; Stderr "# Scanning Bar failed (exit code 1)";
        Stderr "# scanning Foo" ].
Proof.
  assert (discover ["Foo.framework"; "Bar.framework"; "Zed.framework"]
          = ["Bar"; "Foo"; "Zed"]) as Hnames by (vm_compute; reflexivity).
  pose proof (first_failure_ends_run Json.loads
                (Sample.world "/sdk"
                   ["Foo.framework"; "Bar.framework"; "Zed.framework"]
                   [ ("Bar", Completed 1 EmptyString);
                     ("Foo", Completed 0 "oops");
                     ("Zed", Completed 0 EmptyString) ])
                "/sdk" ["Foo.framework"; "Bar.framework"; "Zed.framework"]
                ["Bar"] ["Zed"] "Foo" JSONDecodeError eq_refl Hnames) as Hstop.
  cbv zeta in Hstop. rewrite Hnames in Hstop.
  destruct Hstop as (Hout & Hev & _).
  - constructor; [|constructor]. eexists. vm_compute. reflexivity.
  - vm_compute. reflexivity.
  - split; [exact Hout|]. rewrite Hev. vm_compute. reflexivity.
Defined.

Lemma M_eta {A} (m : M A) : m = Run (outcome m) (events m).
Proof. by destruct m. Qed.

(** X11. The diagnostics of a scan whose output is not parsed.  After an exit
    status other than 0, standard error gets the line that announces the scan
    and a line with the exit status; after exit status 0 without any output,
    the announcing line only.  Either way the framework's line is the empty
    attribute set. *)
Theorem unparsed_scan_diagnostics (json_loads : string → option value)
    (w : World) (sdk : string) (frameworks : list string) (width : nat)
    (framework : string) (result : CompletedProcess) :
  subprocess_run w (swiftc_args sdk) (Str.encode ("import " +:+ framework))
    = Some result →
  (returncode result ≠ 0%Z →
   scan_framework json_loads w sdk frameworks width framework
   = Run (Ok (empty_line width framework))
       [ Stderr ("# scanning " +:+ framework);
         Stderr ("# Scanning " +:+ framework +:+ " failed (exit code "
                 +:+ Str.of_Z (returncode result) +:+ ")") ]) ∧
  (returncode result = 0%Z → stdout result = EmptyString →
   scan_framework json_loads w sdk frameworks width framework
   = Run (Ok (empty_line width framework))
       [ Stderr ("# scanning " +:+ framework) ]).
Proof.
  intros Hrun. split.
  - intros Hcode.
    rewrite (M_eta (scan_framework _ _ _ _ _ _)). f_equal.
    + apply (scan_framework_no_response _ _ _ _ _ _ result Hrun).
      unfold response_of. by rewrite decide_True.
    + unfold scan_framework.
      rewrite events_bind, events_bind, outcome_lift, Hrun.
      cbn [eprint outcome events from_option lift app].
      rewrite events_bind, decide_True by done.
      rewrite events_bind, outcome_bind.
      cbn [eprint outcome events]. rewrite bind_Ok. cbv beta iota.
      change (events (mret EmptyString)) with (@nil event).
      change (outcome (mret EmptyString)) with (@Ok string EmptyString).
      cbv beta iota. rewrite events_bind, parse_response_empty. done.
  - intros Hcode Hempty.
    rewrite (M_eta (scan_framework _ _ _ _ _ _)). f_equal.
    + apply (scan_framework_no_response _ _ _ _ _ _ result Hrun).
      unfold response_of. by rewrite decide_False by (intros Hnz; by apply Hnz).
    + unfold scan_framework.
      rewrite events_bind, events_bind, outcome_lift, Hrun.
      cbn [eprint outcome events from_option lift app].
      rewrite events_bind, decide_False by (intros Hnz; by apply Hnz).
      rewrite Hempty.
      change (events (mret EmptyString)) with (@nil event).
      change (outcome (mret EmptyString)) with (@Ok string EmptyString).
      cbv beta iota. rewrite events_bind, parse_response_empty. done.
Qed.

Lemma unparsed_scan_diagnostics_witness :
  scan_framework Json.loads Sample.scenario "/sdk" ["Bar"; "Foo"] 3 "Bar"
  = Run (Ok ("  Bar = {};" +:+ NL))
      [ Stderr "# scanning Bar"; Stderr "# Scanning Bar failed (exit code 1)" ].
Proof.
  apply (proj1 (unparsed_scan_diagnostics Json.loads Sample.scenario "/sdk"
                  ["Bar"; "Foo"] 3 "Bar" (Completed 1 "<unknown>:0: error")
                  eq_refl)).
  discriminate.
Defined.

(** ** Exit statuses *)

Lemma no_exit_bind {A B} (r : result A) (f : A → result B) :
  no_exit r → (∀ a, no_exit (f a)) → no_exit (r ≫= f).
Proof. destruct r as [a|e]; [intros _ Hf; apply Hf|done]. Qed.

Lemma no_exit_name_from_ident ident : no_exit (name_from_ident ident).
Proof. unfold name_from_ident. by destruct ident. Qed.

Lemma no_exit_mapM_name_from_ident idents :
  no_exit (mapM name_from_ident idents).
Proof.
  induction idents as [|ident idents IH]; [done|].
  cbn [mapM]. apply no_exit_bind; [apply no_exit_name_from_ident|].
  intros name. by apply no_exit_bind.
Qed.

Lemma no_exit_for_each {A B} (l : list A) (acc : B) (body : B → A → M B) :
  (∀ acc x, no_exit (outcome (body acc x))) →
  no_exit (outcome (for_each l acc body)).
Proof.
  intros Hbody. revert acc.
  induction l as [|x l IH]; intros acc; [done|].
  cbn [for_each]. rewrite outcome_bind. by apply no_exit_bind.
Qed.

Lemma no_exit_scan_pair framework modules deps i :
  no_exit (outcome (scan_pair framework modules deps i)).
Proof.
  unfold scan_pair. rewrite outcome_bind, outcome_lift.
  apply no_exit_bind.
  { apply no_exit_bind; [by destruct modules|].
    by intros [|a [|b [|c items]]]. }
  intros [ident meta]. rewrite outcome_bind, outcome_lift.
  apply no_exit_bind; [apply no_exit_name_from_ident|]. intros name.
  destruct (Py.eq_str name framework); [|done].
  rewrite outcome_bind, outcome_lift. apply no_exit_bind.
  { destruct meta as [| | | | | |d]; try done. cbn. by destruct (d !! _). }
  intros dep_idents. rewrite outcome_bind, outcome_lift. apply no_exit_bind.
  { apply no_exit_bind; [by destruct dep_idents|].
    apply no_exit_mapM_name_from_ident. }
  intros names. by rewrite outcome_bind.
Qed.

Lemma no_exit_parse_response json_loads framework response :
  no_exit (outcome (parse_response json_loads framework response)).
Proof.
  unfold parse_response. case_decide; [|done].
  rewrite outcome_bind, outcome_lift. apply no_exit_bind.
  { by destruct (json_loads response). }
  intros data. rewrite outcome_bind, outcome_lift. apply no_exit_bind.
  { destruct data as [| | | | | |d]; try done. cbn. by destruct (d !! _). }
  intros modules. rewrite outcome_bind, outcome_lift. apply no_exit_bind.
  { by destruct modules. }
  intros n. apply no_exit_for_each. intros. apply no_exit_scan_pair.
Qed.

Lemma no_exit_scan_framework json_loads w sdk frameworks width framework :
  no_exit (outcome (scan_framework json_loads w sdk frameworks width framework)).
Proof.
  rewrite scan_framework_outcome.
  destruct (subprocess_run _ _ _) as [result|]; [|done].
  apply no_exit_bind; [apply no_exit_parse_response|done].
Qed.

Lemma no_exit_scan_sdk json_loads w sdk :
  no_exit (outcome (scan_sdk json_loads w sdk)).
Proof.
  rewrite scan_sdk_outcome.
  destruct (os_listdir w _) as [entries|]; [|done].
  destruct (Py.max_by_len (discover entries)) as [longest|e] eqn:Hmax.
  - pose proof (no_exit_for_each (discover entries) HEADER
      (λ output framework,
         line ← scan_framework json_loads w sdk (discover entries)
                  (name_width (discover entries)) framework;
         mret (output +:+ line))) as Hloop.
    destruct (outcome (for_each _ _ _)) as [output|e]; [done|].
    apply Hloop. intros acc framework. rewrite outcome_bind.
    apply no_exit_bind; [apply no_exit_scan_framework|done].
  - destruct (discover entries) as [|x l]; cbn in Hmax; [by injection Hmax as <-|].
    by destruct (Py.max_by_len l).
Qed.

(** X5. The exit status of the script is 0, 1 or 64.  It is 64 exactly when
    the argument count is wrong: nothing that goes wrong during a scan gives
    status 64.  It is 0 exactly when the script runs to its end. *)
Theorem exit_status_values (json_loads : string → option value) (w : World)
    (prog : string) (args : list string) :
  (exit_status json_loads w prog args = 0%Z ∨
   exit_status json_loads w prog args = 1%Z ∨
   exit_status json_loads w prog args = 64%Z) ∧
  (exit_status json_loads w prog args = 64%Z ↔ length args ≠ 1) ∧
  (exit_status json_loads w prog args = 0%Z ↔
   outcome (main json_loads w prog args) = Ok ()).
Proof.
  destruct (decide (length args = 1)) as [Hone|Hother].
  - destruct args as [|sdk [|? ?]]; [done| |done].
    unfold exit_status.
    destruct (main_one_argument json_loads w prog sdk) as [-> _].
    pose proof (no_exit_scan_sdk json_loads w sdk) as Hno.
    destruct (outcome (scan_sdk json_loads w sdk)) as [[]|[]];
      cbn in Hno |- *; try done; split_and!; auto; split; try done.
  - assert (outcome (main json_loads w prog args) = Raise (SystemExit 64))
      as Hmain.
    { unfold main. rewrite decide_True by (cbn; lia). done. }
    unfold exit_status. rewrite Hmain. split_and!; auto; by split.
Qed.

Lemma exit_status_values_witness :
  exit_status Json.loads (Sample.single "oops") "gen-frameworks-baseline.py"
    ["/sdk"] ≠ 64%Z.
Proof.
  intros Hexit.
  by apply (proj1 (proj1 (proj2 (exit_status_values Json.loads
              (Sample.single "oops") "gen-frameworks-baseline.py" ["/sdk"])))
            Hexit).
Defined.

(** ** The dependencies kept for a framework *)

(** X6. The line of a framework depends on which names its modules list as
    direct dependencies, not on their order nor on how often a name is
    listed: two lists of names with the same members give the same line. *)
Theorem line_of_members (frameworks : list string) (width : nat)
    (framework : string) (deps1 deps2 : list value) :
  (∀ name : string, VStr name ∈ deps1 ↔ VStr name ∈ deps2) →
  attr_line width framework (filter_deps frameworks framework deps1)
  = attr_line width framework (filter_deps frameworks framework deps2).
Proof.
  intros Hsame. f_equal. apply set_eq. intros dep.
  by rewrite !elem_of_filter_deps, Hsame.
Qed.

Lemma line_of_members_witness :
  attr_line 3 "Foo"
    (filter_deps ["Bar"; "Foo"] "Foo" [VStr "Bar"; VStr "simd"; VStr "Bar"])
  = attr_line 3 "Foo"
      (filter_deps ["Bar"; "Foo"] "Foo" [VStr "simd"; VStr "Bar"]).
Proof.
  apply line_of_members. intros name.
  rewrite !elem_of_cons, !elem_of_nil. tauto.
Defined.

(** X7. Appending the direct dependencies of a second module, as the loop
    does for a Swift overlay and its Clang module, gives the union of what
    each module's dependencies give alone. *)
Theorem filter_deps_app (frameworks : list string) (framework : string)
    (deps1 deps2 : list value) :
  filter_deps frameworks framework (deps1 ++ deps2)
  = filter_deps frameworks framework deps1
    ∪ filter_deps frameworks framework deps2.
Proof.
  apply set_eq. intros dep.
  rewrite elem_of_union, !elem_of_filter_deps, elem_of_app. tauto.
Qed.

(** X8. The line of a framework is the empty attribute set exactly when none
    of the names its modules depend on is another discovered framework or an
    allowed library: a framework that depends on itself only, or on modules
    that are no frameworks, has the empty line. *)
Theorem empty_line_iff (frameworks : list string) (width : nat)
    (framework : string) (deps : list value) :
  attr_line width framework (filter_deps frameworks framework deps)
    = empty_line width framework
  ↔ ∀ name, VStr name ∈ deps →
      name ∈ frameworks ∨ name ∈ ALLOWED_LIBS → name = framework.
Proof.
  split.
  - intros Hline name Hin Hallowed.
    destruct (decide (name = framework)) as [|Hother]; [done|exfalso].
    assert (name ∈ rendered_deps (filter_deps frameworks framework deps))
      as Hkept.
    { apply elem_of_rendered_deps, elem_of_filter_deps. by split_and!. }
    rewrite attr_line_spec in Hline. unfold spec_line, empty_line in Hline.
    destruct (rendered_deps _) as [|dep others];
      [by apply not_elem_of_nil in Hkept|].
    cbv zeta in Hline.
    apply (inj (String.app "  ")) in Hline.
    change (Str.ljust framework width)
      with (framework
            +:+ Str.replicate (width - String.length framework) " "%char)
      in Hline.
    apply (inj (String.app _)) in Hline.
    cbv in Hline. discriminate.
  - intros Hnone.
    assert (filter_deps frameworks framework deps = ∅) as ->; [|done].
    apply set_eq. intros dep. rewrite elem_of_filter_deps, elem_of_empty.
    split; [|done]. intros (Hin & Hallowed & Hother). auto.
Qed.

Lemma empty_line_iff_witness :
  attr_line 3 "Foo"
    (filter_deps ["Bar"; "Foo"] "Foo" [VStr "Foo"; VStr "Baz"; VNone])
  = empty_line 3 "Foo".
Proof.
  apply empty_line_iff. intros name Hin Hallowed.
  rewrite !elem_of_cons, elem_of_nil in Hin.
  destruct Hin as [[= ->]|[[= ->]|[Hnone|[]]]]; [done| |done].
  unfold ALLOWED_LIBS in Hallowed.
  rewrite !elem_of_cons, !elem_of_nil in Hallowed.
  destruct Hallowed as [[Hbar|[Hfoo|[]]]|[Hsimd|[]]]; discriminate.
Defined.

(** ** Modules lists the loop cannot read *)

Lemma range_two (n : nat) :
  Py.range 0 n 2 = (λ k, 2 * k) <$> seq 0 ((n + 1) `div` 2).
Proof.
  unfold Py.range. replace (n - 0 + 2 - 1) with (n + 1) by lia.
  apply list_fmap_ext. intros _ k _. lia.
Qed.

Lemma scan_pairs_prefix framework pre mid tail contribs acc :
  Forall2 (contribution framework) mid contribs →
  outcome (for_each ((λ k, 2 * k) <$> seq (length pre) (length mid)) acc
             (scan_pair framework (VList (flat pre ++ flat mid ++ tail))))
  = Ok (acc ++ concat contribs).
Proof.
  intros Hall. revert pre acc.
  induction Hall as [|[ident meta] names mid contribs Hpair _ IH];
    intros pre acc.
  { cbn. by rewrite app_nil_r. }
  cbn [length seq fmap list_fmap for_each].
  rewrite outcome_bind.
  rewrite (scan_pair_outcome _ _ _ _ ident meta).
  2:{ rewrite drop_app_length'; [done|]. by rewrite length_flat. }
  destruct Hpair as (name & Hname & Hcontrib). cbn in Hname, Hcontrib.
  rewrite Hname, bind_Ok.
  specialize (IH (pre ++ [(ident, meta)])).
  rewrite length_app, flat_app, <- (assoc_L (++)) in IH. cbn in IH.
  replace (length pre + 1) with (S (length pre)) in IH by lia.
  destruct (Py.eq_str name framework).
  - rewrite Hcontrib, !bind_Ok, IH. cbn. by rewrite (assoc_L (++)).
  - subst names. by rewrite bind_Ok, IH.
Qed.

(** The loop stops at the first pair that raises. *)
Lemma scan_pairs_stop framework pairs tail contribs e :
  Forall2 (contribution framework) pairs contribs →
  tail ≠ [] →
  outcome (scan_pair framework (VList (flat pairs ++ tail)) (concat contribs)
             (2 * length pairs)) = Raise e →
  outcome (for_each (Py.range 0 (length (flat pairs ++ tail)) 2) []
             (scan_pair framework (VList (flat pairs ++ tail))))
  = Raise e.
Proof.
  intros Hpairs Hne Hraise.
  rewrite range_two, length_app, length_flat.
  assert (∃ m, (2 * length pairs + length tail + 1) `div` 2
               = length pairs + S m) as [m ->].
  { exists ((2 * length pairs + length tail + 1) `div` 2 - length pairs - 1).
    assert (length tail ≠ 0) by (by destruct tail).
    assert (length pairs + 1 ≤ (2 * length pairs + length tail + 1) `div` 2).
    { apply Nat.div_le_lower_bound; lia. }
    lia. }
  rewrite seq_app, fmap_app, outcome_for_each_app.
  pose proof (scan_pairs_prefix framework [] pairs tail contribs [] Hpairs)
    as Hloop.
  change (length (@nil (value * value))) with 0 in Hloop.
  change (flat [] ++ flat pairs ++ tail) with (flat pairs ++ tail) in Hloop.
  rewrite Hloop, bind_Ok. clear Hloop.
  cbn [seq fmap list_fmap for_each app].
  by rewrite outcome_bind, Nat.add_0_l, Hraise.
Qed.

(** X9. A modules array with an odd number of items, whose pairs are all
    readable, ends the scan with [ValueError]: the last item has no metadata
    to be unpacked with. *)
Theorem odd_modules_list (json_loads : string → option value)
    (framework response : string) (data last : value)
    (pairs : list (value * value)) (contribs : list (list value)) :
  response ≠ EmptyString →
  json_loads response = Some data →
  Py.getitem data "modules" = Ok (VList (flat pairs ++ [last])) →
  Forall2 (contribution framework) pairs contribs →
  outcome (parse_response json_loads framework response) = Raise ValueError.
Proof.
  intros Hne Hloads Hmodules Hpairs.
  unfold parse_response. rewrite decide_True.
  2:{ by destruct response. }
  rewrite outcome_bind, outcome_lift, Hloads. cbn [from_option].
  rewrite bind_Ok, outcome_bind, outcome_lift, Hmodules, bind_Ok.
  rewrite outcome_bind, outcome_lift. cbn [Py.len]. rewrite bind_Ok.
  apply (scan_pairs_stop framework pairs [last] contribs); [done..|].
  unfold scan_pair. rewrite outcome_bind, outcome_lift. cbn [Py.slice2].
  rewrite bind_Ok, drop_app_length' by (by rewrite length_flat). done.
Qed.

Lemma odd_modules_list_witness :
  outcome (parse_response Json.loads "Foo"
             (Sample.json "{'modules': [{'clang': 'Bar'}, {}, {'swift': 'Foo'}]}"))
  = Raise ValueError.
Proof.
  apply (odd_modules_list Json.loads "Foo" _
           (VDict {[ "modules" :=
              VList (flat [ (VDict {[ "clang" := VStr "Bar" ]}, VDict ∅) ]
                     ++ [ VDict {[ "swift" := VStr "Foo" ]} ]) ]})
           (VDict {[ "swift" := VStr "Foo" ]})
           [ (VDict {[ "clang" := VStr "Bar" ]}, VDict ∅) ] [ [] ]).
  - discriminate.
  - vm_compute. reflexivity.
  - reflexivity.
  - constructor; [|constructor].
    exists (VStr "Bar"). split; vm_compute; reflexivity.
Defined.

(** X10. Every identifier the loop reaches must be a JSON object, also the
    identifier of a module that is not the framework's: after readable pairs,
    an identifier of another type ends the scan with [AttributeError]. *)
Theorem identifier_not_an_object (json_loads : string → option value)
    (framework response : string) (data ident meta : value)
    (pairs : list (value * value)) (tail : list value)
    (contribs : list (list value)) :
  response ≠ EmptyString →
  json_loads response = Some data →
  Py.getitem data "modules"
    = Ok (VList (flat pairs ++ ident :: meta :: tail)) →
  Forall2 (contribution framework) pairs contribs →
  (∀ d, ident ≠ VDict d) →
  outcome (parse_response json_loads framework response) = Raise AttributeError.
Proof.
  intros Hne Hloads Hmodules Hpairs Hident.
  unfold parse_response. rewrite decide_True.
  2:{ by destruct response. }
  rewrite outcome_bind, outcome_lift, Hloads. cbn [from_option].
  rewrite bind_Ok, outcome_bind, outcome_lift, Hmodules, bind_Ok.
  rewrite outcome_bind, outcome_lift. cbn [Py.len]. rewrite bind_Ok.
  apply (scan_pairs_stop framework pairs (ident :: meta :: tail) contribs);
    [done..|].
  rewrite (scan_pair_outcome _ _ _ _ ident meta).
  2:{ rewrite drop_app_length' by (by rewrite length_flat). done. }
  unfold name_from_ident.
  destruct ident as [| | | | | |d]; try done. by destruct (Hident d).
Qed.

Lemma identifier_not_an_object_witness :
  outcome (parse_response Json.loads "Foo"
             (Sample.json "{'modules': ['Bar', {}, {'swift': 'Foo'}, {}]}"))
  = Raise AttributeError.
Proof.
  apply (identifier_not_an_object Json.loads "Foo" _
           (VDict {[ "modules" :=
              VList [ VStr "Bar"; VDict ∅;
                      VDict {[ "swift" := VStr "Foo" ]}; VDict ∅ ] ]})
           (VStr "Bar") (VDict ∅)
           [] [ VDict {[ "swift" := VStr "Foo" ]}; VDict ∅ ] []).
  - discriminate.
  - vm_compute. reflexivity.
  - reflexivity.
  - constructor.
  - discriminate.
Defined.

(** ** What a line lists, and what a run does without a listing *)

(** X12. The line of a framework lists every name that a matching module
    depends on and that is a discovered framework or [simd], except the
    framework's own name, and lists nothing else: no such dependency is
    lost. *)
Theorem kept_dependencies (frameworks : list string) (width : nat)
    (framework : string) (deps : list value) :
  attr_line width framework (filter_deps frameworks framework deps)
    = spec_line width framework
        (rendered_deps (filter_deps frameworks framework deps)) ∧
  ∀ name,
    name ∈ rendered_deps (filter_deps frameworks framework deps) ↔
    VStr name ∈ deps ∧ (name ∈ frameworks ∨ name = "simd") ∧ name ≠ framework.
Proof.
  split; [apply attr_line_spec|]. intros name.
  rewrite elem_of_rendered_deps, elem_of_filter_deps.
  unfold ALLOWED_LIBS. by rewrite list_elem_of_singleton.
Qed.

(** X13. When the frameworks directory cannot be listed, the script ends with
    [OSError] and exit status 1 before it runs the compiler: nothing is
    written to standard output or to standard error. *)
Theorem no_listing (json_loads : string → option value) (w : World)
    (prog sdk : string) :
  os_listdir w (sdk +:+ "/System/Library/Frameworks") = None →
  main json_loads w prog [sdk] = Run (Raise OSError) [] ∧
  exit_status json_loads w prog [sdk] = 1%Z.
Proof.
  intros Hls.
  assert (scan_sdk json_loads w sdk = Run (Raise OSError) []) as Hscan.
  { unfold scan_sdk. by rewrite Hls. }
  assert (main json_loads w prog [sdk] = Run (Raise OSError) []) as Hmain.
  { rewrite (M_eta (main _ _ _ _)).
    destruct (main_one_argument json_loads w prog sdk) as [-> ->].
    by rewrite Hscan. }
  split; [done|]. unfold exit_status. by rewrite Hmain.
Qed.

Lemma no_listing_witness :
  main Json.loads Sample.scenario "gen-frameworks-baseline.py" ["/nowhere"]
    = Run (Raise OSError) [] ∧
  exit_status Json.loads Sample.scenario "gen-frameworks-baseline.py"
    ["/nowhere"] = 1%Z.
Proof.
  apply (no_listing Json.loads Sample.scenario "gen-frameworks-baseline.py"
           "/nowhere").
  reflexivity.
Defined.
